(** * Capability mediation bridge of the WebView application

    A shallow embedding of [src/utils/permissions.ts] and of the
    [WebViewScreen] component (second part of
    [src/components/HomeScreen.tsx]), together with the properties the
    specification states about them; then of the address handling of
    [HomeScreen] and of the start-up permission request of [App.tsx], with
    further properties read off the code.

    Asynchronous functions are modelled in a state-and-exception monad over
    a [World]: the host runtime (platform, [JSON.parse], the behaviour of the
    OS permission subsystem), the chronological trace of observable effects
    and the React state of the screen.  A rejected promise is a [Throw]
    completion, [await] is monadic sequencing.  A callback of the screen
    runs to completion before the next one starts, and a state setter takes
    effect at once; the interleaving of suspended callbacks and the
    batching of React updates are outside the model. *)

From stdpp Require Import base gmap strings list.

Set Warnings "-register-all".
Open Scope string_scope.
Open Scope list_scope.

(** ** Values shared by both source files *)

(** [type PermissionType = 'camera' | 'microphone'] (permissions.ts:12). *)
Inductive PermissionType := Camera | Microphone.

(** The JavaScript string a [PermissionType] stands for; it is also the key
    under which the screen stores the grant flag. *)
Definition type_key (type : PermissionType) : string :=
  match type with
  | Camera => "camera"
  | Microphone => "microphone"
  end.

(** [Platform.OS] of react-native. *)
Inductive PlatformOS := ios | android | windows | macos | web.

(** The members of [PERMISSIONS] (react-native-permissions) the code names. *)
Inductive Permission :=
  IOS_CAMERA | IOS_MICROPHONE | ANDROID_CAMERA | ANDROID_RECORD_AUDIO.

(** [PermissionStatus]: the values of [RESULTS] (react-native-permissions). *)
Inductive PermissionStatus := UNAVAILABLE | BLOCKED | DENIED | GRANTED | LIMITED.

(** A value thrown by the runtime, or the reason of a rejected promise. *)
Inductive JsError :=
  | OsError (msg : string)
  | TypeError (msg : string)
  | SyntaxError (msg : string).

(** JavaScript numbers are kept symbolic: only the distinction between
    zero/NaN and the rest is observable by the code (truthiness). *)
Inductive JsNumber :=
  | JsNaN
  | JsInfinity (negative : bool)
  | JsFinite (negative : bool) (mantissa : N) (exponent : Z).

(** JavaScript values, as far as [JSON.parse] produces them and the
    injected script inspects them. *)
Inductive JsValue :=
  | JUndefined
  | JNull
  | JBool (b : bool)
  | JNumber (n : JsNumber)
  | JString (s : string)
  | JArray (elements : list JsValue)
  | JObject (properties : list (string * JsValue)).

(** The action attached to an alert button ([onPress]). *)
Inductive ButtonAction := OpenSettings.

(** One entry of the button list given to [Alert.alert]. *)
Record AlertButton := {
  text : string;
  style : option string;
  onPress : option ButtonAction;
}.

(** The two calls made on the OS permission subsystem. *)
Inductive OsCall := Check (p : Permission) | Request (p : Permission).

(** What an OS call comes back with: a status, or a failure of the call. *)
Inductive Outcome := Resolved (s : PermissionStatus) | Rejected (e : JsError).

(** The [WebView] instance behind [webViewRef.current]. *)
Inductive WebViewInstance := TheWebView.

(** Observable effects of the host code, in the order they happen. *)
Inductive Effect :=
  | EvOs (c : OsCall)
  | EvAlert (title message : string) (buttons : list AlertButton)
  | EvConsoleError (msg : string) (e : JsError)
  | EvWebViewGoBack (wv : WebViewInstance)
  | EvOnGoBack.

#[global] Instance PermissionType_eq_dec : EqDecision PermissionType.
Proof. solve_decision. Defined.
#[global] Instance PlatformOS_eq_dec : EqDecision PlatformOS.
Proof. solve_decision. Defined.
#[global] Instance Permission_eq_dec : EqDecision Permission.
Proof. solve_decision. Defined.
#[global] Instance PermissionStatus_eq_dec : EqDecision PermissionStatus.
Proof. solve_decision. Defined.
#[global] Instance JsError_eq_dec : EqDecision JsError.
Proof. solve_decision. Defined.
#[global] Instance ButtonAction_eq_dec : EqDecision ButtonAction.
Proof. solve_decision. Defined.
#[global] Instance AlertButton_eq_dec : EqDecision AlertButton.
Proof. solve_decision. Defined.
#[global] Instance OsCall_eq_dec : EqDecision OsCall.
Proof. solve_decision. Defined.
#[global] Instance WebViewInstance_eq_dec : EqDecision WebViewInstance.
Proof. solve_decision. Defined.
#[global] Instance Effect_eq_dec : EqDecision Effect.
Proof. solve_decision. Defined.

(** ** The world the host code runs in *)

(** React state of [WebViewScreen] (HomeScreen.tsx:309-315).
    [permissionsGranted] is the JavaScript object held by [useState]: a
    finite map from property names to booleans. *)
Record Screen := {
  webViewRef : option WebViewInstance;
  isLoading : bool;
  canGoBack : bool;
  permissionsGranted : gmap string bool;
}.

(** What the code does not define itself: the platform, [JSON.parse]
    ([None] when it throws a [SyntaxError]) and the OS permission subsystem,
    whose answer may depend on everything that happened before. *)
Record Runtime := {
  Platform_OS : PlatformOS;
  JSON_parse : string -> option JsValue;
  os_answer : list Effect -> OsCall -> Outcome;
}.

Record World := {
  runtime : Runtime;
  trace : list Effect;
  screen : Screen;
}.

Definition emit (e : Effect) (w : World) : World :=
  {| runtime := runtime w; trace := trace w ++ [e]; screen := screen w |}.

Definition with_screen (s : Screen) (w : World) : World :=
  {| runtime := runtime w; trace := trace w; screen := s |}.

(** ** The monad of asynchronous host code *)

Inductive Completion (A : Type) :=
  | Normal (a : A)
  | Throw (e : JsError).
Arguments Normal {A} a.
Arguments Throw {A} e.

Definition Eff (A : Type) : Type := World -> Completion A * World.

Definition ret {A} (a : A) : Eff A := fun w => (Normal a, w).

Definition throw {A} (e : JsError) : Eff A := fun w => (Throw e, w).

Definition bind {A B} (m : Eff A) (k : A -> Eff B) : Eff B :=
  fun w =>
    match m w with
    | (Normal a, w') => k a w'
    | (Throw e, w') => (Throw e, w')
    end.

(** [try { body } catch (error) { handler }]. *)
Definition try_catch {A} (body : Eff A) (handler : JsError -> Eff A) : Eff A :=
  fun w =>
    match body w with
    | (Normal a, w') => (Normal a, w')
    | (Throw e, w') => handler e w'
    end.

(** [await Promise.all([a, b])].  Both promises are created, in array order,
    before anything is awaited, so both computations run whatever the other
    comes to; the aggregate rejects as soon as one of them does.  When both
    reject the model reports the first in array order. *)
Definition promise_all2 {A B} (a : Eff A) (b : Eff B) : Eff (A * B) :=
  fun w =>
    let (ra, w1) := a w in
    let (rb, w2) := b w1 in
    (match ra, rb with
     | Normal x, Normal y => Normal (x, y)
     | Throw e, _ => Throw e
     | Normal _, Throw e => Throw e
     end, w2).

Declare Scope eff_scope.
Delimit Scope eff_scope with eff.
Notation "'let*' x ':=' m 'in' k" := (bind m (fun x => k))
  (at level 10, x pattern, m at level 100, k at level 200) : eff_scope.
Notation "m ';;;' k" := (bind m (fun _ => k))
  (at level 100, k at level 200, right associativity) : eff_scope.
Open Scope eff_scope.

Definition do_emit (e : Effect) : Eff unit := fun w => (Normal tt, emit e w).

Definition get_platform : Eff PlatformOS :=
  fun w => (Normal (Platform_OS (runtime w)), w).

(** A call of [check(permission)] or [request(permission)] of
    react-native-permissions, awaited: the call is recorded, and its promise
    fulfils with a status or rejects. *)
Definition os_call (c : OsCall) : Eff PermissionStatus :=
  fun w =>
    match os_answer (runtime w) (trace w) c with
    | Resolved s => (Normal s, emit (EvOs c) w)
    | Rejected e => (Throw e, emit (EvOs c) w)
    end.

Definition check (p : Permission) : Eff PermissionStatus := os_call (Check p).
Definition request (p : Permission) : Eff PermissionStatus := os_call (Request p).

(** [Alert.alert(title, message, buttons)]. *)
Definition Alert_alert (title message : string) (buttons : list AlertButton)
  : Eff unit :=
  do_emit (EvAlert title message buttons).

(** The sub-sequences of a trace the properties talk about. *)
Definition requests_in (l : list Effect) : list Permission :=
  omap (fun e => match e with EvOs (Request p) => Some p | _ => None end) l.

Definition alerts_in (l : list Effect) : list (list AlertButton) :=
  omap (fun e => match e with EvAlert _ _ bs => Some bs | _ => None end) l.

(** ** src/utils/permissions.ts *)

Module Permissions.

Record PermissionResult := {
  granted : bool;
  status : PermissionStatus;
}.

Definition getPermissionConstant (type : PermissionType) : Eff Permission :=
  let* os := get_platform in
  if decide (os = ios) then
    ret (if decide (type = Camera) then IOS_CAMERA else IOS_MICROPHONE)
  else
    ret (if decide (type = Camera) then ANDROID_CAMERA
         else ANDROID_RECORD_AUDIO).

Definition checkPermission (type : PermissionType) : Eff PermissionResult :=
  let* permission := getPermissionConstant type in
  let* status := check permission in
  ret {| granted := bool_decide (status = GRANTED); status := status |}.

Definition requestPermission (type : PermissionType) : Eff PermissionResult :=
  let* permission := getPermissionConstant type in
  let* status := request permission in
  ret {| granted := bool_decide (status = GRANTED); status := status |}.

Record CheckAllResult := {
  check_camera : PermissionResult;
  check_microphone : PermissionResult;
}.

Definition checkAllPermissions : Eff CheckAllResult :=
  let* (camera, microphone) :=
    promise_all2 (checkPermission Camera) (checkPermission Microphone) in
  ret {| check_camera := camera; check_microphone := microphone |}.

Record RequestAllResult := {
  camera : PermissionResult;
  microphone : PermissionResult;
  allGranted : bool;
}.

Definition requestAllPermissions : Eff RequestAllResult :=
  let* (camera, microphone) :=
    promise_all2 (requestPermission Camera) (requestPermission Microphone) in
  ret {| camera := camera;
         microphone := microphone;
         allGranted := granted camera && granted microphone |}.

Definition showPermissionDeniedAlert (permissionType : PermissionType)
  : Eff unit :=
  let permissionName :=
    if decide (permissionType = Camera) then "Camera" else "Microphone" in
  Alert_alert
    (permissionName +:+ " Permission Required")
    (permissionName +:+
       " access is required for this feature. Would you like to open settings to enable it?")
    [ {| text := "Cancel"; style := Some "cancel"; onPress := None |};
      {| text := "Open Settings"; style := None;
         onPress := Some OpenSettings |} ].

Definition handlePermissionResult (type : PermissionType) : Eff bool :=
  let* result := requestPermission type in
  if negb (granted result) then
    (if decide (status result = BLOCKED)
     then showPermissionDeniedAlert type
     else ret tt) ;;;
    ret false
  else
    ret true.

Record BlockedResult := {
  camera_blocked : bool;
  microphone_blocked : bool;
}.

Definition arePermissionsBlocked : Eff BlockedResult :=
  let* (cameraResult, microphoneResult) :=
    promise_all2 (checkPermission Camera) (checkPermission Microphone) in
  ret {| camera_blocked := bool_decide (status cameraResult = BLOCKED);
         microphone_blocked :=
           bool_decide (status microphoneResult = BLOCKED) |}.

End Permissions.

(** ** JavaScript operations used by the screen and the injected script *)

Fixpoint lookup_property (properties : list (string * JsValue)) (name : string)
  : option JsValue :=
  match properties with
  | [] => None
  | (k, v) :: rest => if decide (k = name) then Some v else lookup_property rest name
  end.

(** [value.name] for the property names the code reads ([type],
    [permission], [video], [audio]; none of them is defined on a built-in
    prototype): a [TypeError] on [null] and [undefined], the own property of
    an object, [undefined] everywhere else. *)
Definition get_property (value : JsValue) (name : string) : Completion JsValue :=
  match value with
  | JUndefined | JNull =>
      Throw (TypeError ("Cannot read properties of null or undefined (reading '"
                          +:+ name +:+ "')"))
  | JObject properties => Normal (default JUndefined (lookup_property properties name))
  | _ => Normal JUndefined
  end.

(** [value === 'literal']. *)
Definition strict_eq_string (value : JsValue) (literal : string) : bool :=
  match value with
  | JString s => bool_decide (s = literal)
  | _ => false
  end.

(** Truthiness of a value in a condition. *)
Definition truthy (value : JsValue) : bool :=
  match value with
  | JUndefined | JNull => false
  | JBool b => b
  | JNumber JsNaN => false
  | JNumber (JsInfinity _) => true
  | JNumber (JsFinite _ mantissa _) => negb (bool_decide (mantissa = 0%N))
  | JString s => negb (bool_decide (s = EmptyString))
  | JArray _ | JObject _ => true
  end.

(** The double-quote character and a quoted JSON string without escapes. *)
Definition dquote : string := String (Ascii.ascii_of_nat 34) EmptyString.
Definition json_quote (s : string) : string := dquote +:+ s +:+ dquote.

(** ** WebViewScreen (src/components/HomeScreen.tsx, lines 283-558) *)

Module WebViewScreen.

Definition get_screen : Eff Screen := fun w => (Normal (screen w), w).

Definition setIsLoading (b : bool) : Eff unit :=
  fun w =>
    let s := screen w in
    (Normal tt,
     with_screen {| webViewRef := webViewRef s; isLoading := b;
                    canGoBack := canGoBack s;
                    permissionsGranted := permissionsGranted s |} w).

Definition setCanGoBack (b : bool) : Eff unit :=
  fun w =>
    let s := screen w in
    (Normal tt,
     with_screen {| webViewRef := webViewRef s; isLoading := isLoading s;
                    canGoBack := b;
                    permissionsGranted := permissionsGranted s |} w).

(** [setPermissionsGranted(prev => ...)]: the updater form, applied to the
    state current at the time of the update. *)
Definition setPermissionsGranted
    (updater : gmap string bool -> gmap string bool) : Eff unit :=
  fun w =>
    let s := screen w in
    (Normal tt,
     with_screen {| webViewRef := webViewRef s; isLoading := isLoading s;
                    canGoBack := canGoBack s;
                    permissionsGranted := updater (permissionsGranted s) |} w).

Definition console_error (msg : string) (error : JsError) : Eff unit :=
  do_emit (EvConsoleError msg error).

(** HomeScreen.tsx:337-368. *)
Definition requestPermission (permissionType : PermissionType) : Eff bool :=
  let* os := get_platform in
  let permission :=
    if decide (os = ios) then
      (if decide (permissionType = Camera) then IOS_CAMERA else IOS_MICROPHONE)
    else
      (if decide (permissionType = Camera) then ANDROID_CAMERA
       else ANDROID_RECORD_AUDIO) in
  try_catch
    (let* result := request permission in
     let granted := bool_decide (result = GRANTED) in
     setPermissionsGranted
       (fun prev => <[type_key permissionType := granted]> prev) ;;;
     ret granted)
    (fun error =>
       console_error
         ("Error requesting " +:+ type_key permissionType +:+ " permission:")
         error ;;;
       ret false).

(** HomeScreen.tsx:371-384. *)
Definition requestAllPermissions : Eff bool :=
  let* cameraGranted := requestPermission Camera in
  let* microphoneGranted := requestPermission Microphone in
  (if negb cameraGranted || negb microphoneGranted then
     Alert_alert
       "Permissions Required"
       "Camera and microphone permissions are required for this feature. Please enable them in your device settings."
       [ {| text := "OK"; style := None; onPress := None |} ]
   else ret tt) ;;;
  ret (cameraGranted && microphoneGranted).

Definition JSON_parse_call (data : string) : Eff JsValue :=
  fun w =>
    match JSON_parse (runtime w) data with
    | Some v => (Normal v, w)
    | None => (Throw (SyntaxError "Unexpected token in JSON"), w)
    end.

(** [data.name === 'literal'] as a step of the handler. *)
Definition property_is (data : JsValue) (name literal : string) : Eff bool :=
  fun w =>
    match get_property data name with
    | Normal v => (Normal (strict_eq_string v literal), w)
    | Throw e => (Throw e, w)
    end.

(** HomeScreen.tsx:387-403; [event_data] is [event.nativeEvent.data]. *)
Definition handlePermissionRequest (event_data : string) : Eff unit :=
  try_catch
    (let* data := JSON_parse_call event_data in
     let* is_request := property_is data "type" "PERMISSION_REQUEST" in
     if is_request then
       let* is_camera := property_is data "permission" "camera" in
       if is_camera then requestPermission Camera ;;; ret tt
       else
         let* is_microphone := property_is data "permission" "microphone" in
         if is_microphone then requestPermission Microphone ;;; ret tt
         else
           let* is_all := property_is data "permission" "all" in
           if is_all then requestAllPermissions ;;; ret tt
           else ret tt
     else ret tt)
    (fun error => ret tt).

(** The host's exit-the-viewer action: the [onGoBack] prop. *)
Definition onGoBack : Eff unit := do_emit EvOnGoBack.

(** [webViewRef.current.goBack()]. *)
Definition goBack (wv : WebViewInstance) : Eff unit :=
  do_emit (EvWebViewGoBack wv).

(** HomeScreen.tsx:320-327.  The listener is registered anew whenever
    [canGoBack] changes, so it reads the current value. *)
Definition onBackPress : Eff bool :=
  let* s := get_screen in
  match canGoBack s, webViewRef s with
  | true, Some current => goBack current ;;; ret true
  | _, _ => onGoBack ;;; ret true
  end.

(** *** The screen as an event-driven machine *)

(** The callbacks the rendered tree registers (HomeScreen.tsx:318-334,
    443, 469-472). *)
Inductive ScreenEvent :=
  | HardwareBackPress
  | HeaderBackPress
  | LoadStart
  | LoadEnd
  | NavigationStateChange (navState_canGoBack : bool)
  | Message (data : string).

Definition dispatch (ev : ScreenEvent) : Eff unit :=
  match ev with
  | HardwareBackPress => onBackPress ;;; ret tt
  | HeaderBackPress => onGoBack
  | LoadStart => setIsLoading true
  | LoadEnd => setIsLoading false
  | NavigationStateChange b => setCanGoBack b
  | Message data => handlePermissionRequest data
  end.

(** Whether a callback is one of the [WebView] element's own
    (HomeScreen.tsx:469-472): those are invoked by the [WebView] instance. *)
Definition from_WebView (ev : ScreenEvent) : bool :=
  match ev with
  | HardwareBackPress | HeaderBackPress => false
  | LoadStart | LoadEnd | NavigationStateChange _ | Message _ => true
  end.

(** The screen at its first render: [useRef(null)] and the initial values
    of the [useState] hooks (HomeScreen.tsx:309-315). *)
Definition initial_screen : Screen :=
  {| webViewRef := None;
     isLoading := true;
     canGoBack := false;
     permissionsGranted := {[ "camera" := false; "microphone" := false ]} |}.

Definition mount (rt : Runtime) : World :=
  {| runtime := rt; trace := []; screen := initial_screen |}.

(** React attaches [webViewRef] to the instance of the [WebView] element
    ([ref={webViewRef}], HomeScreen.tsx:466) when it commits the element.
    No code of the component assigns the reference. *)
Definition attach (w : World) : World :=
  let s := screen w in
  with_screen {| webViewRef := Some TheWebView; isLoading := isLoading s;
                 canGoBack := canGoBack s;
                 permissionsGranted := permissionsGranted s |} w.

(** The worlds a mounted screen can be in: from the first render, React
    attaches the reference and callbacks run, each to completion; a callback
    of the [WebView] element runs only once its instance is attached.  The
    screen's life ends at unmount, which is not a step. *)
Inductive reachable : World -> Prop :=
  | reachable_mount (rt : Runtime) : reachable (mount rt)
  | reachable_attach (w : World) : reachable w -> reachable (attach w)
  | reachable_dispatch (w : World) (ev : ScreenEvent) :
      reachable w ->
      (from_WebView ev = true -> webViewRef (screen w) = Some TheWebView) ->
      reachable (snd (dispatch ev w)).

End WebViewScreen.

(** ** The script injected into the content (HomeScreen.tsx:406-437) *)

Module InjectedJavaScript.

(** What the wrapper does inside the content context. *)
Inductive ContentEffect :=
  | PostMessage (data : string)
  | OriginalGetUserMedia (constraints : JsValue).

(** [JSON.stringify({type: 'PERMISSION_REQUEST', permission: p})] for a
    [p] without characters to escape. *)
Definition permission_request_message (permission : string) : string :=
  "{" +:+ json_quote "type" +:+ ":" +:+ json_quote "PERMISSION_REQUEST"
      +:+ "," +:+ json_quote "permission" +:+ ":" +:+ json_quote permission
      +:+ "}".

Section Wrapper.
(** The promise type of the original entry point, and the entry point
    itself as bound at injection time. *)
Context {MediaPromise : Type}.
Variable originalGetUserMedia : JsValue -> MediaPromise.

(** The replacement of [navigator.mediaDevices.getUserMedia].  The
    result is the completion of the [async] function's body: [Normal p]
    when it returns the original's promise [p], [Throw e] when the body
    throws (the returned promise then rejects with [e]). *)
Definition getUserMedia (constraints : JsValue)
  : Completion MediaPromise * list ContentEffect :=
  match get_property constraints "video" with
  | Throw e => (Throw e, [])
  | Normal video =>
      let camera_message :=
        if truthy video
        then [PostMessage (permission_request_message "camera")] else [] in
      match get_property constraints "audio" with
      | Throw e => (Throw e, camera_message)
      | Normal audio =>
          let microphone_message :=
            if truthy audio
            then [PostMessage (permission_request_message "microphone")]
            else [] in
          (Normal (originalGetUserMedia constraints),
           (camera_message ++ microphone_message
              ++ [OriginalGetUserMedia constraints])%list)
      end
  end.
End Wrapper.

End InjectedJavaScript.

(** ** Sample runtimes, used to run the definitions on concrete inputs *)

(** The platform identifier both implementations resolve a capability to. *)
Definition platform_permission (os : PlatformOS) (type : PermissionType)
  : Permission :=
  match os, type with
  | ios, Camera => IOS_CAMERA
  | ios, Microphone => IOS_MICROPHONE
  | _, Camera => ANDROID_CAMERA
  | _, Microphone => ANDROID_RECORD_AUDIO
  end.

(** The object a conforming bridge message parses to. *)
Definition bridge_message (permission : string) : JsValue :=
  JObject [("type", JString "PERMISSION_REQUEST");
           ("permission", JString permission)].

(** A reader of exactly the messages the injected script posts; every other
    payload is a syntax error. *)
Definition sample_parse (data : string) : option JsValue :=
  if decide (data = InjectedJavaScript.permission_request_message "camera")
  then Some (bridge_message "camera")
  else if decide (data = InjectedJavaScript.permission_request_message "microphone")
  then Some (bridge_message "microphone")
  else if decide (data = InjectedJavaScript.permission_request_message "all")
  then Some (bridge_message "all")
  else None.

(** An OS that answers independently of the past. *)
Definition sample_runtime (os : PlatformOS) (answer : OsCall -> Outcome)
  : Runtime :=
  {| Platform_OS := os; JSON_parse := sample_parse;
     os_answer := fun _ c => answer c |}.

(** A mounted screen, reference attached, nothing done yet. *)
Definition sample_world (os : PlatformOS) (answer : OsCall -> Outcome) : World :=
  WebViewScreen.attach (WebViewScreen.mount (sample_runtime os answer)).

Definition always (s : PermissionStatus) : OsCall -> Outcome :=
  fun _ => Resolved s.

Definition failing : OsCall -> Outcome :=
  fun _ => Rejected (OsError "permission service unavailable").

(** Camera answered with [s], everything else granted. *)
Definition camera_is (s : PermissionStatus) : OsCall -> Outcome :=
  fun c =>
    match c with
    | Check ANDROID_CAMERA | Request ANDROID_CAMERA
    | Check IOS_CAMERA | Request IOS_CAMERA => Resolved s
    | _ => Resolved GRANTED
    end.

(** The store after the screen recorded an answer for [type]. *)
Definition recorded (w : World) (type : PermissionType) (granted : bool)
  : World :=
  let os := Platform_OS (runtime w) in
  let w1 := emit (EvOs (Request (platform_permission os type))) w in
  snd (WebViewScreen.setPermissionsGranted
         (fun prev => <[type_key type := granted]> prev) w1).

(** The world after the screen caught a failure of the OS call. *)
Definition failure_logged (w : World) (type : PermissionType) (e : JsError)
  : World :=
  let os := Platform_OS (runtime w) in
  emit (EvConsoleError
          ("Error requesting " +:+ type_key type +:+ " permission:") e)
    (emit (EvOs (Request (platform_permission os type))) w).

(** The effects added to the trace between two worlds of one run. *)
Definition new_effects (before after : World) : list Effect :=
  drop (length (trace before)) (trace after).

(** *** The wire format, in the specification's words

    A structured payload with string field [type], whose only recognised
    value is ["PERMISSION_REQUEST"], and string field [permission], one of
    ["camera"], ["microphone"], ["all"]. *)

Definition own_property (v : JsValue) (name : string) : option JsValue :=
  match v with
  | JObject properties => lookup_property properties name
  | _ => None
  end.

(** The string a field holds; [None] when the field is missing or holds
    something else than a string. *)
Definition message_field (v : JsValue) (name : string) : option string :=
  match own_property v name with
  | Some (JString s) => Some s
  | _ => None
  end.

Definition conforming (rt : Runtime) (data : string) : bool :=
  match JSON_parse rt data with
  | None => false
  | Some v =>
      bool_decide (message_field v "type" = Some "PERMISSION_REQUEST")
      && (bool_decide (message_field v "permission" = Some "camera")
          || bool_decide (message_field v "permission" = Some "microphone")
          || bool_decide (message_field v "permission" = Some "all"))
  end.

(** *** The two alert surfaces of the code *)

Definition settings_buttons : list AlertButton :=
  [ {| text := "Cancel"; style := Some "cancel"; onPress := None |};
    {| text := "Open Settings"; style := None; onPress := Some OpenSettings |} ].

Definition ok_buttons : list AlertButton :=
  [ {| text := "OK"; style := None; onPress := None |} ].

(** Whether a button list lets the user open the OS settings. *)
Definition offers_open_settings (buttons : list AlertButton) : bool :=
  existsb (fun b => bool_decide (onPress b = Some OpenSettings)) buttons.

(** Whether the constraints of a media request ask for [kind] ([video] or
    [audio]): the property is there and truthy. *)
Definition requests (constraints : JsValue) (kind : string) : bool :=
  match own_property constraints kind with
  | Some v => truthy v
  | None => false
  end.

(** ** Code outside the bridge: a trace monad for synchronous helpers

    [HomeScreen] and [App] do not share the world of the viewer screen; their
    functions are modelled as computations that return a completion and the
    list of effects they produced. *)

Definition Tr (E A : Type) : Type := Completion A * list E.

Definition tr_ret {E A} (a : A) : Tr E A := (Normal a, []).

Definition tr_emit {E} (e : E) : Tr E unit := (Normal tt, [e]).

Definition tr_bind {E A B} (m : Tr E A) (k : A -> Tr E B) : Tr E B :=
  match m with
  | (Normal a, l) => let (r, l') := k a in (r, l ++ l')
  | (Throw e, l) => (Throw e, l)
  end.

Definition tr_try_catch {E A} (body : Tr E A) (handler : JsError -> Tr E A)
  : Tr E A :=
  match body with
  | (Normal a, l) => (Normal a, l)
  | (Throw e, l) => let (r, l') := handler e in (r, l ++ l')
  end.

(** ** HomeScreen (src/components/HomeScreen.tsx, lines 1-282) *)

Module HomeScreen.

(** Strings are read in an ASCII-compatible encoding (UTF-8): the regular
    expression below only looks at ASCII characters, and prefixing commutes
    with the encoding. *)

(** A character of the subject against a letter of a pattern under the [i]
    flag (no [u] flag): the letter itself or its upper-case form.  A
    character outside ASCII never matches an ASCII letter. *)
Definition matches_letter (c letter : Ascii.ascii) : bool :=
  Ascii.eqb c letter
  || Ascii.eqb c (Ascii.ascii_of_nat (Ascii.nat_of_ascii letter - 32)).

(** The rest of [s] after a case-insensitive match of the lower-case
    letters [letters] at its start. *)
Fixpoint strip_letters (letters s : string) : option string :=
  match letters with
  | EmptyString => Some s
  | String l letters' =>
      match s with
      | String c s' =>
          if matches_letter c l then strip_letters letters' s' else None
      | EmptyString => None
      end
  end.

(** Whether [s] starts with the literal [literal]. *)
Fixpoint starts_with (literal s : string) : bool :=
  match literal with
  | EmptyString => true
  | String l literal' =>
      match s with
      | String c s' => Ascii.eqb c l && starts_with literal' s'
      | EmptyString => false
      end
  end.

(** [urlString.match(/^https?:\/\//i)] is not [null]. *)
Definition matches_protocol (urlString : string) : bool :=
  match strip_letters "http" urlString with
  | None => false
  | Some rest =>
      match strip_letters "s" rest with
      | Some rest' => starts_with "://" rest' || starts_with "://" rest
      | None => starts_with "://" rest
      end
  end.

(** HomeScreen.tsx:36-41. *)
Definition formatUrl (urlString : string) : string :=
  if negb (matches_protocol urlString) then "https://" +:+ urlString
  else urlString.

(** What the screen does to the outside. *)
Inductive HomeEffect :=
  | HomeAlert (title message : string)
  | NavigateToWebView (url : string).

Section Handlers.
(** [String.prototype.trim], and [new URL(s).hostname] ([None] when the
    constructor throws). *)
Variable trim : string -> string.
Variable URL_hostname : string -> option string.

Definition new_URL_hostname (s : string) : Completion string :=
  match URL_hostname s with
  | Some hostname => Normal hostname
  | None => Throw (TypeError "Invalid URL")
  end.

(** HomeScreen.tsx:21-33. *)
Definition isValidUrl (urlString : string) : bool :=
  let testUrl :=
    if negb (matches_protocol urlString) then "https://" +:+ urlString
    else urlString in
  match new_URL_hostname testUrl with
  | Normal hostname => negb (bool_decide (hostname = EmptyString))
  | Throw _ => false
  end.

(** HomeScreen.tsx:43-58; [url] is the state of the text input. *)
Definition handleOpenUrl (url : string) : list HomeEffect :=
  let trimmedUrl := trim url in
  if bool_decide (trimmedUrl = EmptyString) then
    [HomeAlert "Error" "Please enter a URL"]
  else if negb (isValidUrl trimmedUrl) then
    [HomeAlert "Invalid URL" "Please enter a valid URL"]
  else
    let formattedUrl := formatUrl trimmedUrl in
    [NavigateToWebView formattedUrl].
End Handlers.

End HomeScreen.

(** ** App.tsx *)

Module App.

(** The members of [PermissionsAndroid.PERMISSIONS] and
    [PermissionsAndroid.RESULTS] (react-native). *)
Inductive AndroidPermission := CAMERA | RECORD_AUDIO.
Inductive AndroidResult := RESULT_GRANTED | RESULT_DENIED | RESULT_NEVER_ASK_AGAIN.

#[global] Instance AndroidResult_eq_dec : EqDecision AndroidResult.
Proof. solve_decision. Defined.

(** What [PermissionsAndroid.requestMultiple] comes back with: an object
    from permission names to results, or a failure. *)
Inductive MultiOutcome :=
  | MultiResolved (results : list (string * AndroidResult))
  | MultiRejected (e : JsError).

Inductive AppEffect :=
  | RequestMultiple (permissions : list AndroidPermission)
  | AppAlert (title message : string) (buttons : list AlertButton)
  | AppConsoleError (msg : string) (e : JsError).

Section Startup.
Variable requestMultiple_answer : list AndroidPermission -> MultiOutcome.

Definition requestMultiple (permissions : list AndroidPermission)
  : Tr AppEffect (list (string * AndroidResult)) :=
  match requestMultiple_answer permissions with
  | MultiResolved results => (Normal results, [RequestMultiple permissions])
  | MultiRejected e => (Throw e, [RequestMultiple permissions])
  end.

(** [Object.values(results)]. *)
Definition Object_values (results : list (string * AndroidResult))
  : list AndroidResult :=
  map snd results.

(** App.tsx:24-52. *)
Definition requestAndroidPermissions (os : PlatformOS) : Tr AppEffect unit :=
  if negb (bool_decide (os = android)) then tr_ret tt
  else
    tr_try_catch
      (let permissions := [CAMERA; RECORD_AUDIO] in
       tr_bind (requestMultiple permissions) (fun results =>
       let allGranted :=
         forallb (fun result => bool_decide (result = RESULT_GRANTED))
           (Object_values results) in
       if negb allGranted then
         tr_emit
           (AppAlert "Permissions Notice"
              "Camera and microphone permissions are needed for full functionality. You can enable them in Settings."
              [ {| text := "OK"; style := None; onPress := None |} ])
       else tr_ret tt))
      (fun error =>
         tr_emit (AppConsoleError "Error requesting permissions:" error)).
End Startup.

End App.

(** ** What the viewer screen renders from its state
    (HomeScreen.tsx:446-461, 498) *)

(** Whether the indicator of a capability gets the [permissionGranted]
    style: [permissionsGranted.camera && styles.permissionGranted]. *)
Definition indicator_granted (type : PermissionType) (s : Screen) : bool :=
  match permissionsGranted s !! type_key type with
  | Some true => true
  | _ => false
  end.

(** Where in a trace the OS was asked for [p] and answered [GRANTED]. *)
Definition granted_in_trace (rt : Runtime) (p : Permission) (tr : list Effect)
  : Prop :=
  exists before after : list Effect,
    tr = before ++ EvOs (Request p) :: after
    /\ os_answer rt before (Request p) = Resolved GRANTED.

(** The navigation effects of a trace: steps of the content history and
    exits of the viewer. *)
Definition navigation_in (l : list Effect) : list Effect :=
  omap (fun e => match e with
                 | EvWebViewGoBack _ | EvOnGoBack => Some e
                 | _ => None
                 end) l.

(** The payloads among the effects of the injected wrapper. *)
Definition posted_messages (l : list InjectedJavaScript.ContentEffect)
  : list string :=
  omap (fun e => match e with
                 | InjectedJavaScript.PostMessage data => Some data
                 | _ => None
                 end) l.

(** The host handling a sequence of posted payloads, one after the other. *)
Definition deliver (payloads : list string) (w : World) : World :=
  foldl (fun w data => snd (WebViewScreen.handlePermissionRequest data w))
    w payloads.

(** [JSON.parse] reads back what the wrapper wrote with [JSON.stringify]. *)
Definition reads_posted_message (rt : Runtime) (permission : string) : Prop :=
  exists v : JsValue,
    JSON_parse rt (InjectedJavaScript.permission_request_message permission)
    = Some v
    /\ message_field v "type" = Some "PERMISSION_REQUEST"
    /\ message_field v "permission" = Some permission.

(** Every indicator that is on is backed by a [GRANTED] answer of the OS. *)
Definition indicators_justified (w : World) : Prop :=
  forall c : PermissionType,
    indicator_granted c (screen w) = true ->
    granted_in_trace (runtime w)
      (platform_permission (Platform_OS (runtime w)) c) (trace w).

(** ** Running the resolver functions *)

Section Runs.
Variable w : World.
Let rt := runtime w.
Let os := Platform_OS rt.

Lemma getPermissionConstant_run (type : PermissionType) :
  Permissions.getPermissionConstant type w
  = (Normal (platform_permission os type), w).
Proof.
  unfold Permissions.getPermissionConstant, bind, get_platform, ret, os, rt.
  destruct (Platform_OS (runtime w)), type; reflexivity.
Qed.

Lemma os_call_run (c : OsCall) :
  os_call c w
  = (match os_answer rt (trace w) c with
     | Resolved s => Normal s
     | Rejected e => Throw e
     end, emit (EvOs c) w).
Proof. unfold os_call, rt. destruct (os_answer _ _ _); reflexivity. Qed.

Lemma checkPermission_run (type : PermissionType) :
  Permissions.checkPermission type w
  = (match os_answer rt (trace w) (Check (platform_permission os type)) with
     | Resolved s =>
         Normal {| Permissions.granted := bool_decide (s = GRANTED);
                   Permissions.status := s |}
     | Rejected e => Throw e
     end, emit (EvOs (Check (platform_permission os type))) w).
Proof.
  unfold Permissions.checkPermission, bind.
  rewrite getPermissionConstant_run. unfold check.
  rewrite os_call_run. fold rt os.
  destruct (os_answer _ _ _); reflexivity.
Qed.

Lemma requestPermission_run (type : PermissionType) :
  Permissions.requestPermission type w
  = (match os_answer rt (trace w) (Request (platform_permission os type)) with
     | Resolved s =>
         Normal {| Permissions.granted := bool_decide (s = GRANTED);
                   Permissions.status := s |}
     | Rejected e => Throw e
     end, emit (EvOs (Request (platform_permission os type))) w).
Proof.
  unfold Permissions.requestPermission, bind.
  rewrite getPermissionConstant_run. unfold request.
  rewrite os_call_run. fold rt os.
  destruct (os_answer _ _ _); reflexivity.
Qed.

Lemma screen_requestPermission_run (type : PermissionType) :
  WebViewScreen.requestPermission type w
  = match os_answer rt (trace w) (Request (platform_permission os type)) with
    | Resolved s =>
        (Normal (bool_decide (s = GRANTED)),
         recorded w type (bool_decide (s = GRANTED)))
    | Rejected e => (Normal false, failure_logged w type e)
    end.
Proof.
  unfold WebViewScreen.requestPermission, bind, get_platform, try_catch,
    request, recorded, failure_logged.
  assert (Hp : (if decide (Platform_OS (runtime w) = ios)
                then if decide (type = Camera) then IOS_CAMERA else IOS_MICROPHONE
                else if decide (type = Camera) then ANDROID_CAMERA
                     else ANDROID_RECORD_AUDIO)
               = platform_permission os type).
  { unfold os, rt. destruct (Platform_OS (runtime w)), type; reflexivity. }
  rewrite Hp. rewrite os_call_run. fold rt.
  destruct (os_answer _ _ _); reflexivity.
Qed.
End Runs.

Lemma recorded_runtime (w : World) (type : PermissionType) (b : bool) :
  runtime (recorded w type b) = runtime w.
Proof. reflexivity. Qed.

Lemma recorded_trace (w : World) (type : PermissionType) (b : bool) :
  trace (recorded w type b)
  = trace w ++ [EvOs (Request (platform_permission (Platform_OS (runtime w)) type))].
Proof. reflexivity. Qed.

Lemma recorded_store (w : World) (type : PermissionType) (b : bool) :
  permissionsGranted (screen (recorded w type b))
  = <[type_key type := b]> (permissionsGranted (screen w)).
Proof. reflexivity. Qed.

Lemma utility_requestAllPermissions_run (w : World) :
  let os := Platform_OS (runtime w) in
  let cam := Request (platform_permission os Camera) in
  let mic := Request (platform_permission os Microphone) in
  Permissions.requestAllPermissions w
  = (match os_answer (runtime w) (trace w) cam,
           os_answer (runtime w) (trace w ++ [EvOs cam]) mic with
     | Resolved sc, Resolved sm =>
         Normal
           {| Permissions.camera :=
                {| Permissions.granted := bool_decide (sc = GRANTED);
                   Permissions.status := sc |};
              Permissions.microphone :=
                {| Permissions.granted := bool_decide (sm = GRANTED);
                   Permissions.status := sm |};
              Permissions.allGranted :=
                bool_decide (sc = GRANTED) && bool_decide (sm = GRANTED) |}
     | Rejected e, _ => Throw e
     | Resolved _, Rejected e => Throw e
     end, emit (EvOs mic) (emit (EvOs cam) w)).
Proof.
  intros os cam mic.
  unfold Permissions.requestAllPermissions, bind, promise_all2.
  rewrite requestPermission_run.
  rewrite requestPermission_run. cbn [runtime trace emit].
  fold os cam mic.
  destruct (os_answer (runtime w) (trace w) cam);
    destruct (os_answer (runtime w) (trace w ++ [EvOs cam]) mic); reflexivity.
Qed.

(** ** Properties of the capability resolver *)

(** C1. For each capability, the result of [checkPermission] and of
    [requestPermission] has its [granted] field true exactly when its
    [status] field is [GRANTED]. *)
Theorem C1_granted_iff_status_granted
    (c : PermissionType) (w w' : World) (r : Permissions.PermissionResult) :
  Permissions.checkPermission c w = (Normal r, w')
  \/ Permissions.requestPermission c w = (Normal r, w') ->
  Permissions.granted r = bool_decide (Permissions.status r = GRANTED)
  /\ (Permissions.granted r = true <-> Permissions.status r = GRANTED).
Proof.
  intros H.
  assert (Hg : Permissions.granted r
               = bool_decide (Permissions.status r = GRANTED)).
  { destruct H as [H | H];
      [rewrite checkPermission_run in H | rewrite requestPermission_run in H];
      destruct (os_answer _ _ _); inversion H; reflexivity. }
  split; [exact Hg |].
  rewrite Hg. apply bool_decide_eq_true.
Qed.

(** Both operations do return a result whenever the OS answers the call. *)
Lemma resolver_returns (c : PermissionType) (w : World) (s : PermissionStatus) :
  let os := Platform_OS (runtime w) in
  (os_answer (runtime w) (trace w) (Check (platform_permission os c)) = Resolved s ->
   fst (Permissions.checkPermission c w)
   = Normal {| Permissions.granted := bool_decide (s = GRANTED);
               Permissions.status := s |})
  /\ (os_answer (runtime w) (trace w) (Request (platform_permission os c)) = Resolved s ->
      fst (Permissions.requestPermission c w)
      = Normal {| Permissions.granted := bool_decide (s = GRANTED);
                  Permissions.status := s |}).
Proof.
  intros os; split; intros H.
  - rewrite checkPermission_run. fold os. rewrite H. reflexivity.
  - rewrite requestPermission_run. fold os. rewrite H. reflexivity.
Qed.

Lemma C1_witness :
  let w := sample_world android (always BLOCKED) in
  let r := {| Permissions.granted := false; Permissions.status := BLOCKED |} in
  Permissions.checkPermission Camera w
  = (Normal r, emit (EvOs (Check ANDROID_CAMERA)) w)
  /\ Permissions.granted r = bool_decide (Permissions.status r = GRANTED).
Proof.
  intros w r. split; [reflexivity |].
  exact (proj1 (C1_granted_iff_status_granted
                  Camera w (emit (EvOs (Check ANDROID_CAMERA)) w) r
                  (or_introl eq_refl))).
Defined.

(** C3. When [requestAllPermissions] of the utility module returns, its
    record holds the result of the camera request, the result of the
    microphone request, and [allGranted], which is true exactly when both
    results are granted. *)
Theorem C3_allGranted_iff_both_granted
    (w w' : World) (r : Permissions.RequestAllResult) :
  Permissions.requestAllPermissions w = (Normal r, w') ->
  (Permissions.allGranted r = true <->
     Permissions.granted (Permissions.camera r) = true
     /\ Permissions.granted (Permissions.microphone r) = true)
  /\ fst (Permissions.requestPermission Camera w) = Normal (Permissions.camera r)
  /\ fst (Permissions.requestPermission Microphone
            (snd (Permissions.requestPermission Camera w)))
     = Normal (Permissions.microphone r).
Proof.
  rewrite utility_requestAllPermissions_run.
  rewrite !requestPermission_run. cbn [fst snd runtime trace emit].
  destruct (os_answer (runtime w) (trace w) _) as [sc | ];
    destruct (os_answer (runtime w) (trace w ++ _) _) as [sm | ];
    intros H; inversion H; subst; cbn.
  split; [apply andb_true_iff | split; reflexivity].
Qed.

Lemma C3_witness :
  let w := sample_world ios (camera_is BLOCKED) in
  let w' := emit (EvOs (Request IOS_MICROPHONE))
              (emit (EvOs (Request IOS_CAMERA)) w) in
  let r :=
    {| Permissions.camera :=
         {| Permissions.granted := false; Permissions.status := BLOCKED |};
       Permissions.microphone :=
         {| Permissions.granted := true; Permissions.status := GRANTED |};
       Permissions.allGranted := false |} in
  Permissions.requestAllPermissions w = (Normal r, w')
  /\ (Permissions.allGranted r = true <->
        Permissions.granted (Permissions.camera r) = true
        /\ Permissions.granted (Permissions.microphone r) = true).
Proof.
  intros w w' r. split; [reflexivity |].
  exact (proj1 (C3_allGranted_iff_both_granted w w' r eq_refl)).
Defined.

(** ** Failure of the OS call *)

Lemma failure_logged_screen (w : World) (type : PermissionType) (e : JsError) :
  screen (failure_logged w type e) = screen w.
Proof. reflexivity. Qed.

Lemma failure_logged_trace (w : World) (type : PermissionType) (e : JsError) :
  trace (failure_logged w type e)
  = trace w
    ++ [EvOs (Request (platform_permission (Platform_OS (runtime w)) type));
        EvConsoleError ("Error requesting " +:+ type_key type +:+ " permission:") e].
Proof. unfold failure_logged, emit; cbn. rewrite <- app_assoc. reflexivity. Qed.

(** The screen's [requestPermission] always returns a boolean. *)
Lemma screen_requestPermission_returns (c : PermissionType) (w : World) :
  exists (granted : bool) (w' : World),
    WebViewScreen.requestPermission c w = (Normal granted, w').
Proof.
  rewrite screen_requestPermission_run.
  destruct (os_answer _ _ _); eauto.
Qed.

(** The request operation of the utility module has no failure handling: at
    this input the OS call fails and the failure reaches the caller. *)
Lemma C2_counterexample :
  let w := sample_world android failing in
  os_answer (runtime w) (trace w) (Request ANDROID_CAMERA)
  = Rejected (OsError "permission service unavailable")
  /\ Permissions.requestPermission Camera w
     = (Throw (OsError "permission service unavailable"),
        emit (EvOs (Request ANDROID_CAMERA)) w).
Proof. split; reflexivity. Qed.

(** C2 (amended). The screen's own [requestPermission] never throws: it
    always returns a boolean.  When the OS call fails it returns [false],
    leaves the screen state (and with it the stored grant flags) as it was,
    and logs the failure with [console.error] right after the call.  The
    utility module's [requestPermission] passes the same failure on to its
    caller. *)
Theorem C2_screen_request_contains_failure (c : PermissionType) (w : World) :
  let p := platform_permission (Platform_OS (runtime w)) c in
  (exists (granted : bool) (w' : World),
      WebViewScreen.requestPermission c w = (Normal granted, w'))
  /\ (forall e : JsError,
        os_answer (runtime w) (trace w) (Request p) = Rejected e ->
        exists w' : World,
          WebViewScreen.requestPermission c w = (Normal false, w')
          /\ screen w' = screen w
          /\ trace w'
             = trace w
               ++ [EvOs (Request p);
                   EvConsoleError
                     ("Error requesting " +:+ type_key c +:+ " permission:") e]
          /\ fst (Permissions.requestPermission c w) = Throw e).
Proof.
  intros p. split.
  - apply screen_requestPermission_returns.
  - intros e He. exists (failure_logged w c e).
    rewrite screen_requestPermission_run, requestPermission_run.
    fold p. rewrite He. cbn [fst].
    split; [reflexivity |]. split; [apply failure_logged_screen |].
    split; [apply failure_logged_trace | reflexivity].
Qed.

Lemma C2_witness :
  let w := sample_world android failing in
  let e := OsError "permission service unavailable" in
  os_answer (runtime w) (trace w) (Request ANDROID_RECORD_AUDIO) = Rejected e
  /\ exists w' : World,
       WebViewScreen.requestPermission Microphone w = (Normal false, w')
       /\ screen w' = screen w
       /\ trace w'
          = trace w
            ++ [EvOs (Request ANDROID_RECORD_AUDIO);
                EvConsoleError "Error requesting microphone permission:" e]
       /\ fst (Permissions.requestPermission Microphone w) = Throw e.
Proof.
  intros w e. split; [reflexivity |].
  exact (proj2 (C2_screen_request_contains_failure Microphone w) e eq_refl).
Defined.

(** ** The two implementations of the multi-capability request *)

Lemma screen_requestAllPermissions_run (w : World) :
  let os := Platform_OS (runtime w) in
  let cam := WebViewScreen.requestPermission Camera w in
  let mic := WebViewScreen.requestPermission Microphone (snd cam) in
  exists (cameraGranted microphoneGranted : bool),
    fst cam = Normal cameraGranted
    /\ fst mic = Normal microphoneGranted
    /\ WebViewScreen.requestAllPermissions w
       = (Normal (cameraGranted && microphoneGranted),
          if negb cameraGranted || negb microphoneGranted
          then emit (EvAlert "Permissions Required"
                       "Camera and microphone permissions are required for this feature. Please enable them in your device settings."
                       ok_buttons) (snd mic)
          else snd mic).
Proof.
  intros os cam mic.
  destruct (screen_requestPermission_returns Camera w) as (gc & wc & Hc).
  destruct (screen_requestPermission_returns Microphone wc) as (gm & wm & Hm).
  exists gc, gm. subst cam mic. rewrite Hc. cbn [fst snd]. rewrite Hm. cbn [fst snd].
  split; [reflexivity |]. split; [reflexivity |].
  unfold WebViewScreen.requestAllPermissions, bind. rewrite Hc, Hm.
  destruct (negb gc || negb gm); reflexivity.
Qed.

(** C10. Whenever the utility module's concurrent [requestAllPermissions]
    returns a record, the screen's sequential [requestAllPermissions], run
    against the same OS answers, returns the record's [allGranted]. *)
Theorem C10_screen_agrees_with_utility
    (w w' : World) (r : Permissions.RequestAllResult) :
  Permissions.requestAllPermissions w = (Normal r, w') ->
  fst (WebViewScreen.requestAllPermissions w) = Normal (Permissions.allGranted r).
Proof.
  rewrite utility_requestAllPermissions_run.
  destruct (screen_requestAllPermissions_run w) as (gc & gm & Hc & Hm & ->).
  cbn [fst]. revert Hc Hm.
  rewrite screen_requestPermission_run.
  destruct (os_answer (runtime w) (trace w) _) as [sc | ec] eqn:Hsc;
    cbn [fst snd]; [| intros _ _ H; inversion H].
  rewrite screen_requestPermission_run.
  rewrite recorded_runtime, recorded_trace.
  destruct (os_answer (runtime w) (trace w ++ _) _) as [sm | em];
    cbn [fst snd]; intros Hc Hm H; inversion H; subst r; cbn.
  inversion Hc; inversion Hm; reflexivity.
Qed.

Lemma C10_witness :
  let w := sample_world android (camera_is DENIED) in
  let w' := emit (EvOs (Request ANDROID_RECORD_AUDIO))
              (emit (EvOs (Request ANDROID_CAMERA)) w) in
  let r :=
    {| Permissions.camera :=
         {| Permissions.granted := false; Permissions.status := DENIED |};
       Permissions.microphone :=
         {| Permissions.granted := true; Permissions.status := GRANTED |};
       Permissions.allGranted := false |} in
  Permissions.requestAllPermissions w = (Normal r, w')
  /\ fst (WebViewScreen.requestAllPermissions w) = Normal false.
Proof.
  intros w w' r. split; [reflexivity |].
  exact (C10_screen_agrees_with_utility w w' r eq_refl).
Defined.

(** ** The message handler, case by case *)

Lemma new_effects_app (w w' : World) (delta : list Effect) :
  trace w' = trace w ++ delta -> new_effects w w' = delta.
Proof. intros H. unfold new_effects. rewrite H. apply drop_app_length. Qed.

Lemma property_is_run (v : JsValue) (name literal : string) (w : World) :
  v <> JNull -> v <> JUndefined ->
  WebViewScreen.property_is v name literal w
  = (Normal (bool_decide (message_field v name = Some literal)), w).
Proof.
  intros Hn Hu. unfold WebViewScreen.property_is, message_field, own_property.
  destruct v as [ | | b | n | s | l | props]; try congruence; cbn;
    try (rewrite bool_decide_eq_false_2 by congruence; reflexivity).
  destruct (lookup_property props name) as [[ | | b | n | s | l | ps] | ]; cbn;
    try (rewrite bool_decide_eq_false_2 by congruence; reflexivity).
  f_equal. f_equal. apply bool_decide_ext. split; congruence.
Qed.

(** What the handler does with a payload, read off its code: nothing when
    parsing fails or a field does not match, one single-capability request,
    or the multi-capability request. *)
Lemma handlePermissionRequest_run (data : string) (w : World) :
  WebViewScreen.handlePermissionRequest data w
  = (Normal tt,
     match JSON_parse (runtime w) data with
     | None => w
     | Some v =>
         if bool_decide (message_field v "type" = Some "PERMISSION_REQUEST") then
           if bool_decide (message_field v "permission" = Some "camera")
           then snd (WebViewScreen.requestPermission Camera w)
           else if bool_decide (message_field v "permission" = Some "microphone")
           then snd (WebViewScreen.requestPermission Microphone w)
           else if bool_decide (message_field v "permission" = Some "all")
           then snd (WebViewScreen.requestAllPermissions w)
           else w
         else w
     end).
Proof.
  unfold WebViewScreen.handlePermissionRequest, try_catch, bind,
    WebViewScreen.JSON_parse_call.
  destruct (JSON_parse (runtime w) data) as [v | ]; [| reflexivity].
  assert (Hv : v = JNull \/ v = JUndefined \/ (v <> JNull /\ v <> JUndefined)).
  { destruct v; auto; right; right; split; discriminate. }
  destruct Hv as [-> | [-> | [Hn Hu]]]; [reflexivity | reflexivity |].
  rewrite property_is_run by assumption.
  destruct (bool_decide (message_field v "type" = Some "PERMISSION_REQUEST"));
    [| reflexivity].
  rewrite property_is_run by assumption.
  destruct (bool_decide (message_field v "permission" = Some "camera")).
  { destruct (screen_requestPermission_returns Camera w) as (g & w' & ->).
    reflexivity. }
  rewrite property_is_run by assumption.
  destruct (bool_decide (message_field v "permission" = Some "microphone")).
  { destruct (screen_requestPermission_returns Microphone w) as (g & w' & ->).
    reflexivity. }
  rewrite property_is_run by assumption.
  destruct (bool_decide (message_field v "permission" = Some "all"));
    [| reflexivity].
  destruct (screen_requestAllPermissions_run w) as (gc & gm & _ & _ & ->).
  reflexivity.
Qed.

(** ** What one callback changes *)

Lemma both_keys_insert (type : PermissionType) (b : bool) (m : gmap string bool) :
  dom m = {[ "camera"; "microphone" ]} ->
  dom (<[type_key type := b]> m) = {[ "camera"; "microphone" ]}.
Proof.
  intros H. rewrite dom_insert_L, H. destruct type; cbn; set_solver.
Qed.

Lemma screen_requestPermission_step (c : PermissionType) (w : World) :
  let w' := snd (WebViewScreen.requestPermission c w) in
  exists delta : list Effect,
    runtime w' = runtime w
    /\ trace w' = trace w ++ delta
    /\ requests_in delta = [platform_permission (Platform_OS (runtime w)) c]
    /\ alerts_in delta = []
    /\ webViewRef (screen w') = webViewRef (screen w)
    /\ canGoBack (screen w') = canGoBack (screen w)
    /\ (dom (permissionsGranted (screen w)) = {[ "camera"; "microphone" ]} ->
        dom (permissionsGranted (screen w')) = {[ "camera"; "microphone" ]}).
Proof.
  intros w'. subst w'. rewrite screen_requestPermission_run.
  destruct (os_answer _ _ _) as [s | e]; cbn [snd].
  - eexists. split; [reflexivity |]. split; [apply recorded_trace |].
    repeat (split; [reflexivity |]).
    rewrite recorded_store. apply both_keys_insert.
  - eexists. split; [reflexivity |]. split; [apply failure_logged_trace |].
    repeat (split; [reflexivity |]). rewrite failure_logged_screen. auto.
Qed.

Lemma screen_requestAllPermissions_step (w : World) :
  let run := WebViewScreen.requestAllPermissions w in
  let os := Platform_OS (runtime w) in
  exists delta : list Effect,
    runtime (snd run) = runtime w
    /\ trace (snd run) = trace w ++ delta
    /\ requests_in delta
       = [platform_permission os Camera; platform_permission os Microphone]
    /\ alerts_in delta
       = match fst run with Normal true => [] | _ => [ok_buttons] end
    /\ webViewRef (screen (snd run)) = webViewRef (screen w)
    /\ canGoBack (screen (snd run)) = canGoBack (screen w)
    /\ (dom (permissionsGranted (screen w)) = {[ "camera"; "microphone" ]} ->
        dom (permissionsGranted (screen (snd run))) = {[ "camera"; "microphone" ]}).
Proof.
  intros run os. subst run.
  destruct (screen_requestAllPermissions_run w) as (gc & gm & _ & _ & ->).
  destruct (screen_requestPermission_step Camera w)
    as (d1 & Hr1 & Ht1 & Hq1 & Ha1 & Hw1 & Hb1 & Hd1).
  destruct (screen_requestPermission_step Microphone
              (snd (WebViewScreen.requestPermission Camera w)))
    as (d2 & Hr2 & Ht2 & Hq2 & Ha2 & Hw2 & Hb2 & Hd2).
  set (w2 := snd (WebViewScreen.requestPermission Microphone
                    (snd (WebViewScreen.requestPermission Camera w)))) in *.
  rewrite Hr1 in Hq2. rewrite Ht1, <- app_assoc in Ht2.
  cbn [fst snd].
  destruct gc, gm; cbn [negb orb andb];
    [ exists (d1 ++ d2)
    | exists (d1 ++ d2 ++ [EvAlert "Permissions Required"
         "Camera and microphone permissions are required for this feature. Please enable them in your device settings."
         ok_buttons]) .. ];
    (split; [cbn; congruence |]);
    (split; [cbn; rewrite Ht2, <- ?app_assoc; reflexivity |]);
    (split; [unfold requests_in in *; rewrite ?omap_app, Hq1, Hq2; reflexivity |]);
    (split; [unfold alerts_in in *; rewrite ?omap_app, Ha1, Ha2; reflexivity |]);
    (split; [cbn; congruence |]);
    (split; [cbn; congruence |]);
    intros Hd; cbn; auto.
Qed.

Lemma dispatch_step (ev : WebViewScreen.ScreenEvent) (w : World) :
  let w' := snd (WebViewScreen.dispatch ev w) in
  exists delta : list Effect,
    runtime w' = runtime w
    /\ trace w' = trace w ++ delta
    /\ webViewRef (screen w') = webViewRef (screen w)
    /\ (dom (permissionsGranted (screen w)) = {[ "camera"; "microphone" ]} ->
        dom (permissionsGranted (screen w')) = {[ "camera"; "microphone" ]})
    /\ (permissionsGranted (screen w') <> permissionsGranted (screen w) ->
        requests_in delta <> []).
Proof.
  intros w'. subst w'. destruct ev; cbn [WebViewScreen.dispatch].
  - unfold WebViewScreen.onBackPress, bind, WebViewScreen.get_screen.
    destruct (canGoBack (screen w)) eqn:Ec, (webViewRef (screen w)) eqn:Er;
      cbn; eexists; (split; [reflexivity |]); (split; [reflexivity |]);
      (split; [congruence |]); (split; [auto | congruence]).
  - cbn. eexists; repeat (split; [reflexivity |]); (split; [auto | congruence]).
  - cbn. exists []. rewrite app_nil_r.
    repeat (split; [reflexivity |]); (split; [auto | congruence]).
  - cbn. exists []. rewrite app_nil_r.
    repeat (split; [reflexivity |]); (split; [auto | congruence]).
  - cbn. exists []. rewrite app_nil_r.
    repeat (split; [reflexivity |]); (split; [auto | congruence]).
  - rewrite handlePermissionRequest_run. cbn [snd].
    assert (Hsame : exists delta : list Effect,
               runtime w = runtime w /\ trace w = trace w ++ delta
               /\ webViewRef (screen w) = webViewRef (screen w)
               /\ (dom (permissionsGranted (screen w)) = {[ "camera"; "microphone" ]} ->
                   dom (permissionsGranted (screen w)) = {[ "camera"; "microphone" ]})
               /\ (permissionsGranted (screen w) <> permissionsGranted (screen w) ->
                   requests_in delta <> [])).
    { exists []. rewrite app_nil_r.
      repeat (split; [reflexivity |]); (split; [auto | congruence]). }
    destruct (JSON_parse (runtime w) data) as [v | ]; [| exact Hsame].
    destruct (bool_decide (message_field v "type" = Some "PERMISSION_REQUEST"));
      [| exact Hsame].
    destruct (bool_decide (message_field v "permission" = Some "camera")).
    { destruct (screen_requestPermission_step Camera w)
        as (d & Hr & Ht & Hq & _ & Hw & _ & Hd).
      exists d. rewrite Hq. do 3 (split; [assumption |]).
      split; [assumption | discriminate]. }
    destruct (bool_decide (message_field v "permission" = Some "microphone")).
    { destruct (screen_requestPermission_step Microphone w)
        as (d & Hr & Ht & Hq & _ & Hw & _ & Hd).
      exists d. rewrite Hq. do 3 (split; [assumption |]).
      split; [assumption | discriminate]. }
    destruct (bool_decide (message_field v "permission" = Some "all"));
      [| exact Hsame].
    destruct (screen_requestAllPermissions_step w)
      as (d & Hr & Ht & Hq & _ & Hw & _ & Hd).
    exists d. rewrite Hq. do 3 (split; [assumption |]).
    split; [assumption | discriminate].
Qed.

(** Only a navigation event of the [WebView] changes [canGoBack]. *)
Lemma dispatch_canGoBack (ev : WebViewScreen.ScreenEvent) (w : World) :
  canGoBack (screen (snd (WebViewScreen.dispatch ev w)))
  = match ev with
    | WebViewScreen.NavigationStateChange b => b
    | _ => canGoBack (screen w)
    end.
Proof.
  destruct ev; cbn [WebViewScreen.dispatch]; try reflexivity.
  - unfold WebViewScreen.onBackPress, bind, WebViewScreen.get_screen.
    destruct (canGoBack (screen w)) eqn:Ec, (webViewRef (screen w)) eqn:Er;
      cbn; congruence.
  - rewrite handlePermissionRequest_run. cbn [snd].
    destruct (JSON_parse (runtime w) data) as [v | ]; [| reflexivity].
    destruct (bool_decide (message_field v "type" = Some "PERMISSION_REQUEST"));
      [| reflexivity].
    destruct (bool_decide (message_field v "permission" = Some "camera")).
    { destruct (screen_requestPermission_step Camera w)
        as (d & _ & _ & _ & _ & _ & Hb & _). exact Hb. }
    destruct (bool_decide (message_field v "permission" = Some "microphone")).
    { destruct (screen_requestPermission_step Microphone w)
        as (d & _ & _ & _ & _ & _ & Hb & _). exact Hb. }
    destruct (bool_decide (message_field v "permission" = Some "all"));
      [| reflexivity].
    destruct (screen_requestAllPermissions_step w)
      as (d & _ & _ & _ & _ & _ & Hb & _). exact Hb.
Qed.

(** ** Properties of the bridge protocol handler *)

(** C4. A payload that parses to [{type: "PERMISSION_REQUEST",
    permission: "all"}] makes the handler issue exactly two OS requests: one
    for the camera permission, then one for the microphone permission, which
    are different permissions.  Each request of the screen's resolver issues
    exactly one OS request, so this is one resolver request per capability. *)
Theorem C4_all_message_requests_each_capability_once
    (w : World) (data : string) (v : JsValue) :
  JSON_parse (runtime w) data = Some v ->
  message_field v "type" = Some "PERMISSION_REQUEST" ->
  message_field v "permission" = Some "all" ->
  let run := WebViewScreen.handlePermissionRequest data w in
  let os := Platform_OS (runtime w) in
  fst run = Normal tt
  /\ requests_in (new_effects w (snd run))
     = [platform_permission os Camera; platform_permission os Microphone]
  /\ platform_permission os Camera <> platform_permission os Microphone.
Proof.
  intros Hparse Htype Hperm run os. subst run.
  rewrite handlePermissionRequest_run, Hparse, Htype, Hperm. cbn [fst snd].
  rewrite bool_decide_eq_true_2 by reflexivity.
  rewrite (bool_decide_eq_false_2 (Some "all" = Some "camera")) by discriminate.
  rewrite (bool_decide_eq_false_2 (Some "all" = Some "microphone")) by discriminate.
  rewrite bool_decide_eq_true_2 by reflexivity.
  split; [reflexivity |].
  destruct (screen_requestAllPermissions_step w) as (d & _ & Ht & Hq & _).
  rewrite (new_effects_app _ _ _ Ht). split; [exact Hq |].
  subst os. destruct (Platform_OS (runtime w)); discriminate.
Qed.

Lemma C4_witness :
  let w := sample_world android (always GRANTED) in
  let data := InjectedJavaScript.permission_request_message "all" in
  let run := WebViewScreen.handlePermissionRequest data w in
  JSON_parse (runtime w) data = Some (bridge_message "all")
  /\ fst run = Normal tt
  /\ requests_in (new_effects w (snd run)) = [ANDROID_CAMERA; ANDROID_RECORD_AUDIO].
Proof.
  intros w data run. split; [reflexivity |].
  pose proof (C4_all_message_requests_each_capability_once
                w data (bridge_message "all") eq_refl eq_refl eq_refl) as H.
  split; [exact (proj1 H) | exact (proj1 (proj2 H))].
Defined.

(** C5. A payload that does not conform to the wire format (it does not
    parse, or its [type] field is missing or is not ["PERMISSION_REQUEST"],
    or its [permission] field is missing or is none of ["camera"],
    ["microphone"], ["all"]) is discarded: the handler completes normally and
    leaves the world as it was, so the stored grant flags are unchanged and
    no OS request, alert or log entry is produced. *)
Theorem C5_nonconforming_message_is_discarded (w : World) (data : string) :
  conforming (runtime w) data = false ->
  WebViewScreen.handlePermissionRequest data w = (Normal tt, w).
Proof.
  unfold conforming. intros H. rewrite handlePermissionRequest_run.
  destruct (JSON_parse (runtime w) data) as [v | ]; [| reflexivity].
  destruct (bool_decide (message_field v "type" = Some "PERMISSION_REQUEST"));
    [| reflexivity].
  cbn in H. apply orb_false_iff in H as [H Hall].
  apply orb_false_iff in H as [Hcam Hmic].
  rewrite Hcam, Hmic, Hall. reflexivity.
Qed.

Lemma C5_witness :
  let w := sample_world ios (always GRANTED) in
  conforming (runtime w) "hello" = false
  /\ WebViewScreen.handlePermissionRequest "hello" w = (Normal tt, w).
Proof.
  intros w. split; [reflexivity |].
  exact (C5_nonconforming_message_is_discarded w "hello" eq_refl).
Defined.

(** A payload that parses but names another message type is discarded all
    the same. *)
Example other_type_is_discarded (rt : Runtime) (w : World) :
  runtime w = rt ->
  JSON_parse rt "{}" = Some (JObject [("type", JString "PING")]) ->
  WebViewScreen.handlePermissionRequest "{}" w = (Normal tt, w).
Proof.
  intros <- H. rewrite handlePermissionRequest_run, H. reflexivity.
Qed.

(** ** Properties of the navigation synchronizer *)

(** A navigation signal reporting [canGoBack] comes from an attached
    [WebView], and the reference stays attached. *)
Lemma reachable_canGoBack_attached (w : World) :
  WebViewScreen.reachable w ->
  canGoBack (screen w) = true -> webViewRef (screen w) = Some TheWebView.
Proof.
  induction 1 as [rt | w _ IH | w ev _ IH Hev]; [discriminate | reflexivity |].
  destruct (dispatch_step ev w) as (d & _ & _ & Hw & _).
  rewrite Hw, dispatch_canGoBack.
  destruct ev; auto.
Qed.

(** The guard of [onBackPress] on [webViewRef.current]: with no [WebView]
    attached the handler exits the viewer whatever [canGoBack] says.  A
    reachable world without a [WebView] attached has [canGoBack] false. *)
Lemma onBackPress_detached (w : World) :
  webViewRef (screen w) = None ->
  WebViewScreen.onBackPress w = (Normal true, emit EvOnGoBack w).
Proof.
  intros H. unfold WebViewScreen.onBackPress, bind, WebViewScreen.get_screen.
  rewrite H. destruct (canGoBack (screen w)); reflexivity.
Qed.

(** C6. In every world a mounted screen can be in, a back action with
    [canGoBack] true only tells the [WebView] to go back (one step of the
    content history, no exit of the viewer), and a back action with
    [canGoBack] false only invokes [onGoBack], once. *)
Theorem C6_back_action (w : World) :
  WebViewScreen.reachable w ->
  (canGoBack (screen w) = true ->
   exists wv : WebViewInstance,
     WebViewScreen.onBackPress w = (Normal true, emit (EvWebViewGoBack wv) w)
     /\ new_effects w (snd (WebViewScreen.onBackPress w)) = [EvWebViewGoBack wv])
  /\ (canGoBack (screen w) = false ->
      WebViewScreen.onBackPress w = (Normal true, emit EvOnGoBack w)
      /\ new_effects w (snd (WebViewScreen.onBackPress w)) = [EvOnGoBack]).
Proof.
  intros Hr. pose proof (reachable_canGoBack_attached w Hr) as Hatt.
  unfold WebViewScreen.onBackPress, bind, WebViewScreen.get_screen.
  split; intros Hc; rewrite Hc.
  - rewrite (Hatt Hc). exists TheWebView. split; [reflexivity |].
    apply new_effects_app. reflexivity.
  - split; [reflexivity |]. apply new_effects_app. reflexivity.
Qed.

Lemma C6_witness :
  let w0 := sample_world android (always GRANTED) in
  let w := snd (WebViewScreen.dispatch (WebViewScreen.NavigationStateChange true) w0) in
  WebViewScreen.reachable w
  /\ canGoBack (screen w) = true
  /\ exists wv : WebViewInstance,
       WebViewScreen.onBackPress w = (Normal true, emit (EvWebViewGoBack wv) w)
       /\ new_effects w (snd (WebViewScreen.onBackPress w)) = [EvWebViewGoBack wv].
Proof.
  intros w0 w.
  assert (Hr : WebViewScreen.reachable w).
  { apply WebViewScreen.reachable_dispatch; [| reflexivity].
    apply WebViewScreen.reachable_attach, WebViewScreen.reachable_mount. }
  split; [exact Hr |]. split; [reflexivity |].
  exact (proj1 (C6_back_action w Hr) eq_refl).
Defined.

(** C8. The stored grant flags are an object with exactly the keys
    ["camera"] and ["microphone"]: both are there, set to [false], when the
    screen mounts; they are the keys of the store in every world the screen
    can be in; and a callback changes the store only if it issued an OS
    request. *)
Theorem C8_store_keeps_both_keys :
  (forall rt : Runtime,
      permissionsGranted (screen (WebViewScreen.mount rt))
      = {[ "camera" := false; "microphone" := false ]})
  /\ (forall w : World,
        WebViewScreen.reachable w ->
        dom (permissionsGranted (screen w)) = {[ "camera"; "microphone" ]})
  /\ (forall (w : World) (ev : WebViewScreen.ScreenEvent),
        let w' := snd (WebViewScreen.dispatch ev w) in
        permissionsGranted (screen w') <> permissionsGranted (screen w) ->
        requests_in (new_effects w w') <> []).
Proof.
  split; [reflexivity |]. split.
  - induction 1 as [rt | w _ IH | w ev _ IH _].
    + unfold WebViewScreen.mount, WebViewScreen.initial_screen.
      cbn [screen permissionsGranted].
      rewrite dom_insert_L, dom_singleton_L. reflexivity.
    + exact IH.
    + destruct (dispatch_step ev w) as (d & _ & _ & _ & Hd & _). auto.
  - intros w ev w' Hne.
    destruct (dispatch_step ev w) as (d & _ & Ht & _ & _ & Hq).
    subst w'. rewrite (new_effects_app _ _ _ Ht). auto.
Qed.

Lemma C8_witness :
  let w0 := sample_world android (camera_is DENIED) in
  let data := InjectedJavaScript.permission_request_message "all" in
  let w := snd (WebViewScreen.dispatch (WebViewScreen.Message data) w0) in
  WebViewScreen.reachable w
  /\ permissionsGranted (screen w) = {[ "camera" := false; "microphone" := true ]}
  /\ dom (permissionsGranted (screen w)) = {[ "camera"; "microphone" ]}.
Proof.
  intros w0 data w.
  assert (Hr : WebViewScreen.reachable w).
  { apply WebViewScreen.reachable_dispatch; [| reflexivity].
    apply WebViewScreen.reachable_attach, WebViewScreen.reachable_mount. }
  split; [exact Hr |]. split; [vm_compute; reflexivity |].
  exact (proj1 (proj2 C8_store_keeps_both_keys) w Hr).
Defined.

(** ** The remediation surfaces *)

Lemma handlePermissionResult_alerts (t : PermissionType) (w : World) :
  alerts_in (new_effects w (snd (Permissions.handlePermissionResult t w)))
  = match os_answer (runtime w) (trace w)
            (Request (platform_permission (Platform_OS (runtime w)) t)) with
    | Resolved BLOCKED => [settings_buttons]
    | _ => []
    end.
Proof.
  unfold Permissions.handlePermissionResult, bind.
  rewrite requestPermission_run.
  destruct (os_answer _ _ _) as [s | e];
    cbn [snd Permissions.granted Permissions.status].
  - destruct (decide (s = GRANTED)) as [-> | Hg].
    + rewrite bool_decide_eq_true_2 by reflexivity. cbn.
      erewrite new_effects_app by reflexivity. reflexivity.
    + rewrite bool_decide_eq_false_2 by assumption. cbn [negb].
      destruct (decide (s = BLOCKED)) as [-> | Hb].
      * unfold Permissions.showPermissionDeniedAlert, Alert_alert, do_emit, ret.
        cbn [snd].
        erewrite new_effects_app by (cbn; rewrite <- app_assoc; reflexivity).
        reflexivity.
      * cbn. erewrite new_effects_app by reflexivity.
        destruct s; congruence || reflexivity.
  - cbn. erewrite new_effects_app by reflexivity. reflexivity.
Qed.

(** The screen shows its alert on an incomplete multi-capability grant, and
    that alert has a single OK button: no way to the OS settings. *)
Lemma C7_counterexample :
  let w := sample_world android (camera_is DENIED) in
  let data := InjectedJavaScript.permission_request_message "all" in
  let w' := snd (WebViewScreen.handlePermissionRequest data w) in
  alerts_in (new_effects w w')
  = [ [ {| text := "OK"; style := None; onPress := None |} ] ]
  /\ forallb offers_open_settings (alerts_in (new_effects w w')) = false.
Proof. split; vm_compute; reflexivity. Qed.

(** C7 (amended). There are two alert surfaces.  [handlePermissionResult]
    of the utility module shows one exactly when the single request it made
    came back [BLOCKED], with the two buttons Cancel and Open Settings; it
    shows none on any other answer, a plain denial included.  The screen's
    [requestAllPermissions] shows one exactly when it does not return
    [true], and that alert has the single button OK, without a way to the OS
    settings.  The screen's single-capability [requestPermission] never
    shows an alert, so the message handler shows one only for a payload
    whose [permission] field is ["all"]. *)
Theorem C7_remediation_surfaces :
  (forall (t : PermissionType) (w : World),
      alerts_in (new_effects w (snd (Permissions.handlePermissionResult t w)))
      = match os_answer (runtime w) (trace w)
                (Request (platform_permission (Platform_OS (runtime w)) t)) with
        | Resolved BLOCKED => [settings_buttons]
        | _ => []
        end)
  /\ (length settings_buttons = 2 /\ offers_open_settings settings_buttons = true)
  /\ (forall w : World,
        alerts_in (new_effects w (snd (WebViewScreen.requestAllPermissions w)))
        = match fst (WebViewScreen.requestAllPermissions w) with
          | Normal true => []
          | _ => [ok_buttons]
          end)
  /\ (length ok_buttons = 1 /\ offers_open_settings ok_buttons = false)
  /\ (forall (c : PermissionType) (w : World),
        alerts_in (new_effects w (snd (WebViewScreen.requestPermission c w))) = [])
  /\ (forall (data : string) (w : World),
        alerts_in (new_effects w (snd (WebViewScreen.handlePermissionRequest data w)))
        <> [] ->
        exists v : JsValue,
          JSON_parse (runtime w) data = Some v
          /\ message_field v "permission" = Some "all").
Proof.
  assert (Hall : forall w : World,
             alerts_in (new_effects w (snd (WebViewScreen.requestAllPermissions w)))
             = match fst (WebViewScreen.requestAllPermissions w) with
               | Normal true => []
               | _ => [ok_buttons]
               end).
  { intros w. destruct (screen_requestAllPermissions_step w)
      as (d & _ & Ht & _ & Ha & _).
    rewrite (new_effects_app _ _ _ Ht). exact Ha. }
  assert (Hone : forall (c : PermissionType) (w : World),
             alerts_in (new_effects w (snd (WebViewScreen.requestPermission c w)))
             = []).
  { intros c w. destruct (screen_requestPermission_step c w)
      as (d & _ & Ht & _ & Ha & _).
    rewrite (new_effects_app _ _ _ Ht). exact Ha. }
  split; [exact handlePermissionResult_alerts |].
  split; [split; reflexivity |].
  split; [exact Hall |].
  split; [split; reflexivity |].
  split; [exact Hone |].
  intros data w. rewrite handlePermissionRequest_run. cbn [snd].
  assert (Hnil : alerts_in (new_effects w w) = []).
  { rewrite (new_effects_app w w []); [reflexivity | symmetry; apply app_nil_r]. }
  destruct (JSON_parse (runtime w) data) as [v | ]; [| congruence].
  destruct (bool_decide (message_field v "type" = Some "PERMISSION_REQUEST"));
    [| congruence].
  destruct (bool_decide (message_field v "permission" = Some "camera"));
    [rewrite Hone; congruence |].
  destruct (bool_decide (message_field v "permission" = Some "microphone"));
    [rewrite Hone; congruence |].
  destruct (bool_decide_reflect (message_field v "permission" = Some "all"))
    as [Hperm | _]; [| congruence].
  intros _. exists v. split; [reflexivity | assumption].
Qed.

Lemma C7_witness :
  let w := sample_world android (camera_is BLOCKED) in
  let data := InjectedJavaScript.permission_request_message "all" in
  alerts_in (new_effects w (snd (WebViewScreen.handlePermissionRequest data w)))
  <> []
  /\ (exists v : JsValue,
        JSON_parse (runtime w) data = Some v
        /\ message_field v "permission" = Some "all")
  /\ alerts_in (new_effects w (snd (Permissions.handlePermissionResult Camera w)))
     = [settings_buttons].
Proof.
  intros w data.
  assert (Hne : alerts_in
                  (new_effects w
                     (snd (WebViewScreen.handlePermissionRequest data w)))
                <> []).
  { vm_compute. discriminate. }
  split; [exact Hne |]. split.
  - exact (proj2 (proj2 (proj2 (proj2 (proj2 C7_remediation_surfaces))))
             data w Hne).
  - exact (proj1 C7_remediation_surfaces Camera w).
Defined.

(** ** Properties of the interception shim *)

(** Called without constraints the wrapper throws on the first property
    access, before any message and before the original entry point. *)
Lemma getUserMedia_without_constraints
    {MediaPromise : Type} (original : JsValue -> MediaPromise) :
  exists e : JsError,
    InjectedJavaScript.getUserMedia original JUndefined = (Throw e, []).
Proof. eexists. reflexivity. Qed.

(** C9. For a call that passes constraints, the wrapper posts the camera
    message when the constraints ask for video, then the microphone message
    when they ask for audio, then calls the original entry point with the
    very same constraints and returns what it returns.  These are all its
    effects: it waits for nothing from the host. *)
Theorem C9_shim_notifies_then_calls_original
    {MediaPromise : Type} (original : JsValue -> MediaPromise)
    (constraints : JsValue) :
  constraints <> JUndefined ->
  constraints <> JNull ->
  InjectedJavaScript.getUserMedia original constraints
  = (Normal (original constraints),
     (if requests constraints "video"
      then [InjectedJavaScript.PostMessage
              (InjectedJavaScript.permission_request_message "camera")]
      else [])
     ++ (if requests constraints "audio"
         then [InjectedJavaScript.PostMessage
                 (InjectedJavaScript.permission_request_message "microphone")]
         else [])
     ++ [InjectedJavaScript.OriginalGetUserMedia constraints]).
Proof.
  intros Hu Hn. unfold InjectedJavaScript.getUserMedia, requests, own_property.
  destruct constraints as [ | | b | n | s | l | props]; try congruence;
    try reflexivity.
  cbn [get_property].
  destruct (lookup_property props "video"), (lookup_property props "audio");
    reflexivity.
Qed.

Lemma C9_witness :
  let constraints := JObject [("video", JBool true); ("audio", JBool true)] in
  let original := fun _ : JsValue => 7%nat in
  constraints <> JUndefined
  /\ constraints <> JNull
  /\ InjectedJavaScript.getUserMedia original constraints
     = (Normal 7%nat,
        [InjectedJavaScript.PostMessage
           (InjectedJavaScript.permission_request_message "camera");
         InjectedJavaScript.PostMessage
           (InjectedJavaScript.permission_request_message "microphone");
         InjectedJavaScript.OriginalGetUserMedia constraints]).
Proof.
  intros constraints original.
  assert (Hu : constraints <> JUndefined) by discriminate.
  assert (Hn : constraints <> JNull) by discriminate.
  split; [exact Hu |]. split; [exact Hn |].
  exact (C9_shim_notifies_then_calls_original original constraints Hu Hn).
Defined.

(** The messages the wrapper posts are the payloads the host handler acts
    on once parsed. *)
Example posted_message_text :
  InjectedJavaScript.permission_request_message "camera"
  = "{" +:+ dquote +:+ "type" +:+ dquote +:+ ":" +:+ dquote
        +:+ "PERMISSION_REQUEST" +:+ dquote +:+ "," +:+ dquote
        +:+ "permission" +:+ dquote +:+ ":" +:+ dquote +:+ "camera"
        +:+ dquote +:+ "}".
Proof. reflexivity. Qed.

(** * Further properties of the code *)

(** ** src/utils/permissions.ts, beyond the resolver contract *)

(** X1. The two implementations of the single-capability request agree:
    whenever the utility module's [requestPermission] returns a result, the
    screen's [requestPermission] returns that result's [granted] flag, and
    both make the same single OS call. *)
Theorem screen_request_agrees_with_utility
    (c : PermissionType) (w w' : World) (r : Permissions.PermissionResult) :
  Permissions.requestPermission c w = (Normal r, w') ->
  fst (WebViewScreen.requestPermission c w) = Normal (Permissions.granted r)
  /\ new_effects w (snd (WebViewScreen.requestPermission c w)) = new_effects w w'
  /\ new_effects w w'
     = [EvOs (Request (platform_permission (Platform_OS (runtime w)) c))].
Proof.
  rewrite requestPermission_run, screen_requestPermission_run.
  destruct (os_answer _ _ _) as [s | e]; intros H; inversion H; subst; cbn.
  rewrite (new_effects_app w (recorded w c (bool_decide (s = GRANTED))) _
             (recorded_trace w c _)).
  rewrite (new_effects_app w (emit _ w) _ eq_refl). auto.
Qed.

Lemma screen_request_agrees_with_utility_witness :
  let w := sample_world ios (always LIMITED) in
  let r := {| Permissions.granted := false; Permissions.status := LIMITED |} in
  Permissions.requestPermission Microphone w
  = (Normal r, emit (EvOs (Request IOS_MICROPHONE)) w)
  /\ fst (WebViewScreen.requestPermission Microphone w) = Normal false.
Proof.
  intros w r. split; [reflexivity |].
  exact (proj1 (screen_request_agrees_with_utility
                  Microphone w (emit (EvOs (Request IOS_MICROPHONE)) w) r
                  eq_refl)).
Defined.

(** X2. The utility module's [requestAllPermissions] asks the OS for the
    camera and then for the microphone, once each, whatever the answers:
    also when the camera request fails and the aggregate rejects.  It shows
    no alert. *)
Theorem utility_requestAll_always_asks_both (w : World) :
  let os := Platform_OS (runtime w) in
  new_effects w (snd (Permissions.requestAllPermissions w))
  = [EvOs (Request (platform_permission os Camera));
     EvOs (Request (platform_permission os Microphone))]
  /\ alerts_in (new_effects w (snd (Permissions.requestAllPermissions w))) = [].
Proof.
  intros os. rewrite utility_requestAllPermissions_run. cbn [snd]. fold os.
  erewrite new_effects_app by (cbn; rewrite <- app_assoc; reflexivity).
  split; reflexivity.
Qed.

Lemma checkAllPermissions_run (w : World) :
  let os := Platform_OS (runtime w) in
  let cam := Check (platform_permission os Camera) in
  let mic := Check (platform_permission os Microphone) in
  Permissions.checkAllPermissions w
  = (match os_answer (runtime w) (trace w) cam,
           os_answer (runtime w) (trace w ++ [EvOs cam]) mic with
     | Resolved sc, Resolved sm =>
         Normal
           {| Permissions.check_camera :=
                {| Permissions.granted := bool_decide (sc = GRANTED);
                   Permissions.status := sc |};
              Permissions.check_microphone :=
                {| Permissions.granted := bool_decide (sm = GRANTED);
                   Permissions.status := sm |} |}
     | Rejected e, _ => Throw e
     | Resolved _, Rejected e => Throw e
     end, emit (EvOs mic) (emit (EvOs cam) w)).
Proof.
  intros os cam mic.
  unfold Permissions.checkAllPermissions, bind, promise_all2.
  rewrite checkPermission_run.
  rewrite checkPermission_run. cbn [runtime trace emit].
  fold os cam mic.
  destruct (os_answer (runtime w) (trace w) cam);
    destruct (os_answer (runtime w) (trace w ++ [EvOs cam]) mic); reflexivity.
Qed.

Lemma arePermissionsBlocked_run (w : World) :
  let os := Platform_OS (runtime w) in
  let cam := Check (platform_permission os Camera) in
  let mic := Check (platform_permission os Microphone) in
  Permissions.arePermissionsBlocked w
  = (match os_answer (runtime w) (trace w) cam,
           os_answer (runtime w) (trace w ++ [EvOs cam]) mic with
     | Resolved sc, Resolved sm =>
         Normal
           {| Permissions.camera_blocked := bool_decide (sc = BLOCKED);
              Permissions.microphone_blocked := bool_decide (sm = BLOCKED) |}
     | Rejected e, _ => Throw e
     | Resolved _, Rejected e => Throw e
     end, emit (EvOs mic) (emit (EvOs cam) w)).
Proof.
  intros os cam mic.
  unfold Permissions.arePermissionsBlocked, bind, promise_all2.
  rewrite checkPermission_run.
  rewrite checkPermission_run. cbn [runtime trace emit].
  fold os cam mic.
  destruct (os_answer (runtime w) (trace w) cam);
    destruct (os_answer (runtime w) (trace w ++ [EvOs cam]) mic); reflexivity.
Qed.

(** X3. [checkAllPermissions] only queries: it makes the two [check] calls,
    camera then microphone, and never a [request] (so it cannot prompt the
    user) and never an alert, whatever the OS answers. *)
Theorem checkAll_only_checks (w : World) :
  let os := Platform_OS (runtime w) in
  let delta := new_effects w (snd (Permissions.checkAllPermissions w)) in
  delta = [EvOs (Check (platform_permission os Camera));
           EvOs (Check (platform_permission os Microphone))]
  /\ requests_in delta = []
  /\ alerts_in delta = [].
Proof.
  intros os delta. subst delta. rewrite checkAllPermissions_run. cbn [snd].
  fold os.
  erewrite new_effects_app by (cbn; rewrite <- app_assoc; reflexivity).
  repeat split; reflexivity.
Qed.

(** X4. [arePermissionsBlocked] agrees with [checkAllPermissions]: run in
    the same world, whenever the latter returns, the former returns, for
    each capability, whether the checked status is [BLOCKED]; a capability
    it reports blocked is one [checkAllPermissions] reports not granted. *)
Theorem blocked_agrees_with_checkAll
    (w w' : World) (r : Permissions.CheckAllResult) :
  Permissions.checkAllPermissions w = (Normal r, w') ->
  exists b : Permissions.BlockedResult,
    Permissions.arePermissionsBlocked w = (Normal b, w')
    /\ Permissions.camera_blocked b
       = bool_decide (Permissions.status (Permissions.check_camera r) = BLOCKED)
    /\ Permissions.microphone_blocked b
       = bool_decide (Permissions.status (Permissions.check_microphone r) = BLOCKED)
    /\ (Permissions.camera_blocked b = true ->
        Permissions.granted (Permissions.check_camera r) = false)
    /\ (Permissions.microphone_blocked b = true ->
        Permissions.granted (Permissions.check_microphone r) = false).
Proof.
  rewrite checkAllPermissions_run, arePermissionsBlocked_run.
  destruct (os_answer (runtime w) (trace w) _) as [sc | ];
    [| intros H; inversion H].
  destruct (os_answer (runtime w) (trace w ++ _) _) as [sm | ];
    intros H; inversion H; subst; cbn.
  eexists. split; [reflexivity |]. cbn.
  split; [reflexivity |]. split; [reflexivity |].
  split; intros Hb; apply bool_decide_eq_true in Hb; subst; reflexivity.
Qed.

Lemma blocked_agrees_with_checkAll_witness :
  let w := sample_world android (camera_is BLOCKED) in
  let w' := emit (EvOs (Check ANDROID_RECORD_AUDIO))
              (emit (EvOs (Check ANDROID_CAMERA)) w) in
  let r :=
    {| Permissions.check_camera :=
         {| Permissions.granted := false; Permissions.status := BLOCKED |};
       Permissions.check_microphone :=
         {| Permissions.granted := true; Permissions.status := GRANTED |} |} in
  Permissions.checkAllPermissions w = (Normal r, w')
  /\ exists b : Permissions.BlockedResult,
       Permissions.arePermissionsBlocked w = (Normal b, w')
       /\ Permissions.camera_blocked b = true
       /\ Permissions.microphone_blocked b = false.
Proof.
  intros w w' r. split; [reflexivity |].
  destruct (blocked_agrees_with_checkAll w w' r eq_refl)
    as (b & Hrun & Hc & Hm & _).
  exists b. split; [exact Hrun |]. split; [exact Hc | exact Hm].
Defined.

(** X5. [handlePermissionResult] asks the OS exactly once and returns true
    exactly when the answer is [GRANTED]; on any other answer it returns
    false; a failure of the OS call is not handled and reaches the caller.
    When it returns true it has shown no alert. *)
Theorem handlePermissionResult_result (t : PermissionType) (w : World) :
  let p := platform_permission (Platform_OS (runtime w)) t in
  let run := Permissions.handlePermissionResult t w in
  fst run
  = match os_answer (runtime w) (trace w) (Request p) with
    | Resolved s => Normal (bool_decide (s = GRANTED))
    | Rejected e => Throw e
    end
  /\ requests_in (new_effects w (snd run)) = [p]
  /\ (fst run = Normal true -> alerts_in (new_effects w (snd run)) = []).
Proof.
  intros p run. subst run.
  pose proof (handlePermissionResult_alerts t w) as Halerts. fold p in Halerts.
  rewrite Halerts.
  unfold Permissions.handlePermissionResult, bind.
  rewrite requestPermission_run. fold p.
  destruct (os_answer _ _ _) as [s | e];
    cbn [snd fst Permissions.granted Permissions.status].
  - destruct (decide (s = GRANTED)) as [-> | Hg].
    + rewrite bool_decide_eq_true_2 by reflexivity. cbn.
      erewrite new_effects_app by reflexivity. auto.
    + rewrite bool_decide_eq_false_2 by assumption. cbn [negb].
      destruct (decide (s = BLOCKED)) as [-> | Hb].
      * unfold Permissions.showPermissionDeniedAlert, Alert_alert, do_emit, ret.
        cbn [fst snd].
        erewrite new_effects_app by (cbn; rewrite <- app_assoc; reflexivity).
        split; [reflexivity |]. split; [reflexivity | discriminate].
      * cbn. erewrite new_effects_app by reflexivity.
        split; [reflexivity |]. split; [reflexivity | discriminate].
  - cbn. erewrite new_effects_app by reflexivity.
    split; [reflexivity |]. split; [reflexivity | discriminate].
Qed.

(** ** The viewer screen, beyond the bridge claims *)

Lemma type_key_inj (c c' : PermissionType) : type_key c = type_key c' -> c = c'.
Proof. destruct c, c'; cbn; congruence. Qed.

(** What a single request leaves alone. *)
Lemma screen_requestPermission_frame (c : PermissionType) (w : World) :
  let w' := snd (WebViewScreen.requestPermission c w) in
  isLoading (screen w') = isLoading (screen w)
  /\ navigation_in (new_effects w w') = []
  /\ (forall k : string, k <> type_key c ->
      permissionsGranted (screen w') !! k = permissionsGranted (screen w) !! k).
Proof.
  intros w'. subst w'. rewrite screen_requestPermission_run.
  destruct (os_answer _ _ _) as [s | e]; cbn [snd].
  - rewrite (new_effects_app _ _ _ (recorded_trace w c _)).
    split; [reflexivity |]. split; [reflexivity |].
    intros k Hk. rewrite recorded_store. apply lookup_insert_ne. congruence.
  - rewrite (new_effects_app _ _ _ (failure_logged_trace w c e)).
    split; [reflexivity |]. split; [reflexivity |]. reflexivity.
Qed.

Lemma new_effects_trans (w w1 w2 : World) (d1 d2 : list Effect) :
  trace w1 = trace w ++ d1 -> trace w2 = trace w1 ++ d2 ->
  new_effects w w2 = d1 ++ d2.
Proof.
  intros H1 H2. apply new_effects_app. rewrite H2, H1, app_assoc. reflexivity.
Qed.

Lemma trace_extends_request (c : PermissionType) (w : World) :
  trace (snd (WebViewScreen.requestPermission c w))
  = trace w ++ new_effects w (snd (WebViewScreen.requestPermission c w)).
Proof.
  destruct (screen_requestPermission_step c w) as (d & _ & Ht & _).
  rewrite (new_effects_app _ _ _ Ht). exact Ht.
Qed.

(** The world the multi-capability request ends in, and what it leaves
    alone. *)
Lemma screen_requestAllPermissions_frame (w : World) :
  let w' := snd (WebViewScreen.requestAllPermissions w) in
  isLoading (screen w') = isLoading (screen w)
  /\ navigation_in (new_effects w w') = []
  /\ (forall k : string, k <> "camera" -> k <> "microphone" ->
      permissionsGranted (screen w') !! k = permissionsGranted (screen w) !! k).
Proof.
  intros w'. subst w'.
  destruct (screen_requestAllPermissions_run w) as (gc & gm & _ & _ & ->).
  set (w1 := snd (WebViewScreen.requestPermission Camera w)).
  set (w2 := snd (WebViewScreen.requestPermission Microphone w1)).
  destruct (screen_requestPermission_frame Camera w) as (Hl1 & Hn1 & Hk1).
  destruct (screen_requestPermission_frame Microphone w1) as (Hl2 & Hn2 & Hk2).
  fold w1 in Hl1, Hn1, Hk1. fold w2 in Hl2, Hn2, Hk2.
  pose proof (trace_extends_request Camera w) as Ht1. fold w1 in Ht1.
  pose proof (trace_extends_request Microphone w1) as Ht2. fold w2 in Ht2.
  cbn [snd].
  assert (Hstore : forall k : string, k <> "camera" -> k <> "microphone" ->
            permissionsGranted (screen w2) !! k
            = permissionsGranted (screen w) !! k).
  { intros k Hc Hm. rewrite Hk2 by exact Hm. apply Hk1. exact Hc. }
  assert (Ht12 : trace w2
                 = trace w ++ (new_effects w w1 ++ new_effects w1 w2)).
  { rewrite Ht2, Ht1. symmetry. apply app_assoc. }
  destruct (negb gc || negb gm).
  - split; [cbn; congruence |]. split; [| exact Hstore].
    erewrite new_effects_app
      by (cbn [emit trace]; rewrite Ht12, <- app_assoc; reflexivity).
    unfold navigation_in in *. rewrite !omap_app, Hn1, Hn2. reflexivity.
  - split; [congruence |]. split; [| exact Hstore].
    rewrite (new_effects_app _ _ _ Ht12).
    unfold navigation_in in *. rewrite omap_app, Hn1, Hn2. reflexivity.
Qed.

(** X6. No callback of the viewer screen throws: whatever the payload of a
    message, the state of the screen and the behaviour of the OS, each
    callback completes normally. *)
Theorem callbacks_never_throw (ev : WebViewScreen.ScreenEvent) (w : World) :
  fst (WebViewScreen.dispatch ev w) = Normal tt.
Proof.
  destruct ev; cbn [WebViewScreen.dispatch]; try reflexivity.
  - unfold WebViewScreen.onBackPress, bind, WebViewScreen.get_screen.
    destruct (canGoBack (screen w)), (webViewRef (screen w)); reflexivity.
  - rewrite handlePermissionRequest_run. reflexivity.
Qed.

(** X7. A payload naming one capability makes the handler ask the OS once,
    for that capability only; it shows no alert whatever the answer (a
    permanent block included) and leaves the stored flag of the other
    capability as it was. *)
Theorem single_capability_message
    (w : World) (data : string) (v : JsValue) (c : PermissionType) :
  JSON_parse (runtime w) data = Some v ->
  message_field v "type" = Some "PERMISSION_REQUEST" ->
  message_field v "permission" = Some (type_key c) ->
  let w' := snd (WebViewScreen.handlePermissionRequest data w) in
  requests_in (new_effects w w')
  = [platform_permission (Platform_OS (runtime w)) c]
  /\ alerts_in (new_effects w w') = []
  /\ (forall c' : PermissionType, c' <> c ->
      permissionsGranted (screen w') !! type_key c'
      = permissionsGranted (screen w) !! type_key c').
Proof.
  intros Hparse Htype Hperm w'. subst w'.
  rewrite handlePermissionRequest_run, Hparse, Htype, Hperm. cbn [snd].
  rewrite bool_decide_eq_true_2 by reflexivity.
  assert (Hgoal : forall c0 : PermissionType, c0 = c ->
            let w0 := snd (WebViewScreen.requestPermission c0 w) in
            requests_in (new_effects w w0)
            = [platform_permission (Platform_OS (runtime w)) c]
            /\ alerts_in (new_effects w w0) = []
            /\ (forall c' : PermissionType, c' <> c ->
                permissionsGranted (screen w0) !! type_key c'
                = permissionsGranted (screen w) !! type_key c')).
  { intros c0 -> w0. subst w0.
    destruct (screen_requestPermission_step c w) as (d & _ & Ht & Hq & Ha & _).
    destruct (screen_requestPermission_frame c w) as (_ & _ & Hk).
    rewrite (new_effects_app _ _ _ Ht).
    split; [exact Hq |]. split; [exact Ha |].
    intros c' Hc'. apply Hk. intros Heq. apply Hc'. apply type_key_inj, Heq. }
  destruct c; cbn [type_key].
  - rewrite bool_decide_eq_true_2 by reflexivity. apply (Hgoal Camera eq_refl).
  - rewrite (bool_decide_eq_false_2 (Some "microphone" = Some "camera"))
      by discriminate.
    rewrite bool_decide_eq_true_2 by reflexivity.
    apply (Hgoal Microphone eq_refl).
Qed.

Lemma single_capability_message_witness :
  let w := sample_world android (camera_is BLOCKED) in
  let data := InjectedJavaScript.permission_request_message "camera" in
  let w' := snd (WebViewScreen.handlePermissionRequest data w) in
  JSON_parse (runtime w) data = Some (bridge_message "camera")
  /\ requests_in (new_effects w w') = [ANDROID_CAMERA]
  /\ alerts_in (new_effects w w') = [].
Proof.
  intros w data w'. split; [reflexivity |].
  pose proof (single_capability_message
                w data (bridge_message "camera") Camera
                eq_refl eq_refl eq_refl) as H.
  split; [exact (proj1 H) | exact (proj1 (proj2 H))].
Defined.

(** X8. The stored flag follows the latest answer: after a request the OS
    answered, the flag and the indicator of that capability are true
    exactly when the answer is [GRANTED] (an earlier grant is overwritten
    by a later denial), and no other key of the store changes. *)
Theorem store_follows_latest_answer
    (c : PermissionType) (w : World) (s : PermissionStatus) :
  os_answer (runtime w) (trace w)
    (Request (platform_permission (Platform_OS (runtime w)) c)) = Resolved s ->
  let w' := snd (WebViewScreen.requestPermission c w) in
  permissionsGranted (screen w') !! type_key c = Some (bool_decide (s = GRANTED))
  /\ indicator_granted c (screen w') = bool_decide (s = GRANTED)
  /\ (forall k : string, k <> type_key c ->
      permissionsGranted (screen w') !! k = permissionsGranted (screen w) !! k).
Proof.
  intros Hs w'. subst w'.
  destruct (screen_requestPermission_frame c w) as (_ & _ & Hk).
  split; [| split; [| exact Hk]].
  - rewrite screen_requestPermission_run, Hs. cbn [snd].
    rewrite recorded_store. apply lookup_insert_eq.
  - unfold indicator_granted.
    rewrite screen_requestPermission_run, Hs. cbn [snd].
    rewrite recorded_store, lookup_insert_eq.
    destruct (bool_decide (s = GRANTED)); reflexivity.
Qed.

Lemma store_follows_latest_answer_witness :
  let rt := {| Platform_OS := android; JSON_parse := sample_parse;
               os_answer := fun past _ =>
                 match past with
                 | [] => Resolved GRANTED
                 | _ => Resolved DENIED
                 end |} in
  let w0 := WebViewScreen.attach (WebViewScreen.mount rt) in
  let w := snd (WebViewScreen.requestPermission Camera w0) in
  indicator_granted Camera (screen w) = true
  /\ os_answer (runtime w) (trace w) (Request ANDROID_CAMERA) = Resolved DENIED
  /\ indicator_granted Camera
       (screen (snd (WebViewScreen.requestPermission Camera w))) = false.
Proof.
  intros rt w0 w. split; [vm_compute; reflexivity |]. split; [reflexivity |].
  exact (proj1 (proj2 (store_follows_latest_answer Camera w DENIED eq_refl))).
Defined.

Lemma screen_requestAll_true_iff (w : World) :
  let rt := runtime w in
  let cam := Request (platform_permission (Platform_OS rt) Camera) in
  let mic := Request (platform_permission (Platform_OS rt) Microphone) in
  fst (WebViewScreen.requestAllPermissions w) = Normal true <->
    os_answer rt (trace w) cam = Resolved GRANTED
    /\ os_answer rt (trace w ++ [EvOs cam]) mic = Resolved GRANTED.
Proof.
  intros rt cam mic.
  destruct (screen_requestAllPermissions_run w) as (gc & gm & Hc & Hm & ->).
  cbn [fst]. revert Hc Hm. rewrite screen_requestPermission_run. fold rt cam.
  destruct (os_answer rt (trace w) cam) as [sc | ec]; cbn [fst snd].
  - rewrite screen_requestPermission_run, recorded_runtime, recorded_trace.
    fold rt cam mic.
    destruct (os_answer rt (trace w ++ [EvOs cam]) mic) as [sm | em];
      cbn [fst snd]; intros Hc Hm; inversion Hc; inversion Hm; subst gc gm.
    + split.
      * intros H. inversion H as [Hb]. apply andb_true_iff in Hb as [H1 H2].
        apply bool_decide_eq_true in H1, H2. subst. auto.
      * intros [H1 H2]. inversion H1; inversion H2; subst. reflexivity.
    + rewrite andb_false_r. split; [discriminate |].
      intros [_ H]; discriminate H.
  - intros Hc Hm; inversion Hc; subst gc. cbn [andb].
    split; [discriminate |]. intros [H _]; discriminate H.
Qed.

(** X9. The screen's [requestAllPermissions] returns true exactly when the
    OS answers [GRANTED] to the camera request and then to the microphone
    request; in that case both indicators are on and no alert is shown. *)
Theorem screen_requestAll_true_iff_both_granted (w : World) :
  let rt := runtime w in
  let cam := Request (platform_permission (Platform_OS rt) Camera) in
  let mic := Request (platform_permission (Platform_OS rt) Microphone) in
  let run := WebViewScreen.requestAllPermissions w in
  (fst run = Normal true <->
     os_answer rt (trace w) cam = Resolved GRANTED
     /\ os_answer rt (trace w ++ [EvOs cam]) mic = Resolved GRANTED)
  /\ (fst run = Normal true ->
      indicator_granted Camera (screen (snd run)) = true
      /\ indicator_granted Microphone (screen (snd run)) = true
      /\ alerts_in (new_effects w (snd run)) = []).
Proof.
  intros rt cam mic run. split; [apply screen_requestAll_true_iff |].
  intros Hrun.
  assert (Halerts : alerts_in (new_effects w (snd run)) = []).
  { subst run.
    destruct (screen_requestAllPermissions_step w) as (d & _ & Ht & _ & Ha & _).
    rewrite (new_effects_app _ _ _ Ht), Ha, Hrun. reflexivity. }
  split; [| split; [| exact Halerts]];
    apply screen_requestAll_true_iff in Hrun as [H1 H2];
    fold rt cam mic in H1, H2; subst run;
    unfold WebViewScreen.requestAllPermissions, bind;
    rewrite screen_requestPermission_run; fold rt cam; rewrite H1;
    rewrite screen_requestPermission_run, recorded_runtime, recorded_trace;
    fold rt cam mic; rewrite H2;
    rewrite bool_decide_eq_true_2 by reflexivity; cbn [negb orb snd];
    unfold indicator_granted, ret; cbn [snd];
    rewrite !recorded_store; cbn [type_key].
  - rewrite lookup_insert_ne by discriminate.
    rewrite lookup_insert_eq. reflexivity.
  - rewrite lookup_insert_eq. reflexivity.
Qed.

(** X10. Handling a message from the content never navigates: it neither
    steps the content history nor exits the viewer, and it leaves the
    loading flag, [canGoBack] and the [WebView] reference as they were. *)
Theorem message_never_navigates (data : string) (w : World) :
  let w' := snd (WebViewScreen.handlePermissionRequest data w) in
  navigation_in (new_effects w w') = []
  /\ isLoading (screen w') = isLoading (screen w)
  /\ canGoBack (screen w') = canGoBack (screen w)
  /\ webViewRef (screen w') = webViewRef (screen w).
Proof.
  intros w'. subst w'.
  pose proof (dispatch_canGoBack (WebViewScreen.Message data) w) as Hb.
  destruct (dispatch_step (WebViewScreen.Message data) w) as (d & _ & _ & Hw & _).
  cbn [WebViewScreen.dispatch] in Hb, Hw.
  split; [| split; [| split; [exact Hb | exact Hw]]];
    rewrite handlePermissionRequest_run; cbn [snd].
  - assert (Hnil : navigation_in (new_effects w w) = []).
    { rewrite (new_effects_app w w []); [reflexivity | symmetry; apply app_nil_r]. }
    destruct (JSON_parse (runtime w) data) as [v | ]; [| exact Hnil].
    destruct (bool_decide (message_field v "type" = Some "PERMISSION_REQUEST"));
      [| exact Hnil].
    destruct (bool_decide (message_field v "permission" = Some "camera"));
      [apply screen_requestPermission_frame |].
    destruct (bool_decide (message_field v "permission" = Some "microphone"));
      [apply screen_requestPermission_frame |].
    destruct (bool_decide (message_field v "permission" = Some "all"));
      [apply screen_requestAllPermissions_frame | exact Hnil].
  - destruct (JSON_parse (runtime w) data) as [v | ]; [| reflexivity].
    destruct (bool_decide (message_field v "type" = Some "PERMISSION_REQUEST"));
      [| reflexivity].
    destruct (bool_decide (message_field v "permission" = Some "camera"));
      [apply screen_requestPermission_frame |].
    destruct (bool_decide (message_field v "permission" = Some "microphone"));
      [apply screen_requestPermission_frame |].
    destruct (bool_decide (message_field v "permission" = Some "all"));
      [apply screen_requestAllPermissions_frame | reflexivity].
Qed.

Lemma granted_in_trace_app
    (rt : Runtime) (p : Permission) (tr delta : list Effect) :
  granted_in_trace rt p tr -> granted_in_trace rt p (tr ++ delta).
Proof.
  intros (before & after & -> & Hans).
  exists before, (after ++ delta). split; [| exact Hans].
  rewrite <- app_assoc. reflexivity.
Qed.

Lemma justified_emit (e : Effect) (w : World) :
  indicators_justified w -> indicators_justified (emit e w).
Proof.
  intros H c Hc. cbn [emit runtime trace]. apply granted_in_trace_app.
  apply H. exact Hc.
Qed.

Lemma justified_requestPermission (c0 : PermissionType) (w : World) :
  indicators_justified w ->
  indicators_justified (snd (WebViewScreen.requestPermission c0 w)).
Proof.
  intros H. rewrite screen_requestPermission_run.
  destruct (os_answer _ _ _) as [s | e] eqn:Hans; cbn [snd].
  - intros c Hc. rewrite recorded_runtime, recorded_trace.
    unfold indicator_granted in Hc. rewrite recorded_store in Hc.
    destruct (decide (c = c0)) as [-> | Hne].
    + rewrite lookup_insert_eq in Hc.
      destruct (bool_decide_reflect (s = GRANTED)) as [-> | ]; [| discriminate].
      exists (trace w), []. split; [reflexivity | exact Hans].
    + rewrite lookup_insert_ne in Hc
        by (intros Heq; apply Hne; symmetry; apply type_key_inj, Heq).
      apply granted_in_trace_app. apply H. exact Hc.
  - intros c Hc. rewrite failure_logged_screen in Hc.
    rewrite failure_logged_trace. apply granted_in_trace_app.
    apply H. exact Hc.
Qed.

Lemma justified_requestAllPermissions (w : World) :
  indicators_justified w ->
  indicators_justified (snd (WebViewScreen.requestAllPermissions w)).
Proof.
  intros H.
  destruct (screen_requestAllPermissions_run w) as (gc & gm & _ & _ & ->).
  cbn [snd].
  pose proof (justified_requestPermission Microphone _
                (justified_requestPermission Camera w H)) as H2.
  destruct (negb gc || negb gm); [apply justified_emit |]; exact H2.
Qed.

Lemma justified_dispatch (ev : WebViewScreen.ScreenEvent) (w : World) :
  indicators_justified w ->
  indicators_justified (snd (WebViewScreen.dispatch ev w)).
Proof.
  intros H. destruct ev; cbn [WebViewScreen.dispatch].
  - unfold WebViewScreen.onBackPress, bind, WebViewScreen.get_screen.
    destruct (canGoBack (screen w)), (webViewRef (screen w)); cbn;
      apply justified_emit, H.
  - apply justified_emit, H.
  - exact H.
  - exact H.
  - exact H.
  - rewrite handlePermissionRequest_run. cbn [snd].
    destruct (JSON_parse (runtime w) data) as [v | ]; [| exact H].
    destruct (bool_decide (message_field v "type" = Some "PERMISSION_REQUEST"));
      [| exact H].
    destruct (bool_decide (message_field v "permission" = Some "camera"));
      [apply justified_requestPermission, H |].
    destruct (bool_decide (message_field v "permission" = Some "microphone"));
      [apply justified_requestPermission, H |].
    destruct (bool_decide (message_field v "permission" = Some "all"));
      [apply justified_requestAllPermissions, H | exact H].
Qed.

(** X11. In every world the mounted screen can be in, an indicator is on
    only if the OS was asked for that capability's permission and answered
    [GRANTED]: the content cannot light an indicator by what it posts. *)
Theorem indicator_on_only_after_grant (w : World) (c : PermissionType) :
  WebViewScreen.reachable w ->
  indicator_granted c (screen w) = true ->
  granted_in_trace (runtime w)
    (platform_permission (Platform_OS (runtime w)) c) (trace w).
Proof.
  intros Hr. revert c. change (indicators_justified w).
  induction Hr as [rt | w _ IH | w ev _ IH _].
  - intros c Hc. destruct c; discriminate Hc.
  - exact IH.
  - apply justified_dispatch, IH.
Qed.

Lemma indicator_on_only_after_grant_witness :
  let w0 := sample_world android (always GRANTED) in
  let data := InjectedJavaScript.permission_request_message "microphone" in
  let w := snd (WebViewScreen.dispatch (WebViewScreen.Message data) w0) in
  WebViewScreen.reachable w
  /\ indicator_granted Microphone (screen w) = true
  /\ granted_in_trace (runtime w) ANDROID_RECORD_AUDIO (trace w).
Proof.
  intros w0 data w.
  assert (Hr : WebViewScreen.reachable w).
  { apply WebViewScreen.reachable_dispatch; [| reflexivity].
    apply WebViewScreen.reachable_attach, WebViewScreen.reachable_mount. }
  assert (Hi : indicator_granted Microphone (screen w) = true).
  { vm_compute. reflexivity. }
  split; [exact Hr |]. split; [exact Hi |].
  exact (indicator_on_only_after_grant w Microphone Hr Hi).
Defined.

(** ** From the injected script to the OS *)

Lemma posted_messages_run
    {MediaPromise : Type} (original : JsValue -> MediaPromise)
    (constraints : JsValue) :
  posted_messages (snd (InjectedJavaScript.getUserMedia original constraints))
  = (if requests constraints "video"
     then [InjectedJavaScript.permission_request_message "camera"] else [])
    ++ (if requests constraints "audio"
        then [InjectedJavaScript.permission_request_message "microphone"]
        else []).
Proof.
  unfold InjectedJavaScript.getUserMedia, requests, own_property.
  destruct constraints as [ | | b | n | s | l | props]; try reflexivity.
  cbn [get_property].
  destruct (lookup_property props "video") as [video | ],
      (lookup_property props "audio") as [audio | ]; cbn;
    repeat match goal with |- context [truthy ?v] => destruct (truthy v) end;
    reflexivity.
Qed.

Lemma handle_posted_message (w : World) (c : PermissionType) :
  reads_posted_message (runtime w) (type_key c) ->
  snd (WebViewScreen.handlePermissionRequest
         (InjectedJavaScript.permission_request_message (type_key c)) w)
  = snd (WebViewScreen.requestPermission c w).
Proof.
  intros (v & Hparse & Htype & Hperm).
  rewrite handlePermissionRequest_run, Hparse, Htype, Hperm. cbn [snd].
  rewrite bool_decide_eq_true_2 by reflexivity.
  destruct c; cbn [type_key].
  - rewrite bool_decide_eq_true_2 by reflexivity. reflexivity.
  - rewrite (bool_decide_eq_false_2 (Some "microphone" = Some "camera"))
      by discriminate.
    rewrite bool_decide_eq_true_2 by reflexivity. reflexivity.
Qed.

(** X12. End to end: when [JSON.parse] reads back the two payloads the
    wrapper writes, a media request of the content makes the host ask the OS
    for exactly the capabilities the constraints ask for (camera for video,
    then microphone for audio), once each, and show no alert; a request that
    asks for neither, or passes no constraints, reaches the OS not at all.
    The wrapper never posts a payload naming ["all"]. *)
Theorem media_request_reaches_os
    {MediaPromise : Type} (original : JsValue -> MediaPromise)
    (constraints : JsValue) (w : World) :
  reads_posted_message (runtime w) "camera" ->
  reads_posted_message (runtime w) "microphone" ->
  let posted :=
    posted_messages (snd (InjectedJavaScript.getUserMedia original constraints)) in
  let os := Platform_OS (runtime w) in
  let w' := deliver posted w in
  requests_in (new_effects w w')
  = (if requests constraints "video" then [platform_permission os Camera] else [])
    ++ (if requests constraints "audio"
        then [platform_permission os Microphone] else [])
  /\ alerts_in (new_effects w w') = []
  /\ ~ In (InjectedJavaScript.permission_request_message "all") posted.
Proof.
  intros Hcam Hmic posted os w'. subst posted w'.
  rewrite posted_messages_run.
  assert (Hall : InjectedJavaScript.permission_request_message "all"
                 <> InjectedJavaScript.permission_request_message "camera"
                 /\ InjectedJavaScript.permission_request_message "all"
                    <> InjectedJavaScript.permission_request_message "microphone").
  { split; vm_compute; discriminate. }
  destruct Hall as [Hac Ham].
  pose proof (handle_posted_message w Camera Hcam) as H1. cbn [type_key] in H1.
  pose proof (handle_posted_message w Microphone Hmic) as H2. cbn [type_key] in H2.
  destruct (screen_requestPermission_step Camera w)
    as (d1 & Hr1 & Ht1 & Hq1 & Ha1 & _).
  destruct (screen_requestPermission_step Microphone w)
    as (d2 & Hr2 & Ht2 & Hq2 & Ha2 & _).
  destruct (requests constraints "video"), (requests constraints "audio");
    cbn [app deliver foldl].
  - set (w1 := snd (WebViewScreen.requestPermission Camera w)) in *.
    assert (Hmic1 : reads_posted_message (runtime w1) "microphone")
      by (rewrite Hr1; exact Hmic).
    pose proof (handle_posted_message w1 Microphone Hmic1) as H3.
    cbn [type_key] in H3.
    destruct (screen_requestPermission_step Microphone w1)
      as (d3 & Hr3 & Ht3 & Hq3 & Ha3 & _).
    rewrite H1. fold w1. rewrite H3.
    rewrite (new_effects_trans w w1 _ d1 d3 Ht1 Ht3).
    unfold requests_in, alerts_in in *. rewrite !omap_app.
    rewrite Hq1, Hq3, Ha1, Ha3, Hr1.
    split; [reflexivity |]. split; [reflexivity |].
    intros [H | [H | []]]; [apply Hac | apply Ham]; symmetry; exact H.
  - rewrite H1, (new_effects_app _ _ _ Ht1), Hq1, Ha1.
    split; [reflexivity |]. split; [reflexivity |].
    intros [H | []]. apply Hac. symmetry; exact H.
  - rewrite H2, (new_effects_app _ _ _ Ht2), Hq2, Ha2.
    split; [reflexivity |]. split; [reflexivity |].
    intros [H | []]. apply Ham. symmetry; exact H.
  - rewrite (new_effects_app w w []) by (symmetry; apply app_nil_r).
    split; [reflexivity |]. split; [reflexivity |]. intros [].
Qed.

Lemma media_request_reaches_os_witness :
  let w := sample_world ios (always DENIED) in
  let constraints := JObject [("audio", JBool true)] in
  let posted :=
    posted_messages
      (snd (InjectedJavaScript.getUserMedia (fun _ : JsValue => tt) constraints)) in
  reads_posted_message (runtime w) "camera"
  /\ reads_posted_message (runtime w) "microphone"
  /\ requests_in (new_effects w (deliver posted w)) = [IOS_MICROPHONE].
Proof.
  intros w constraints posted.
  assert (Hcam : reads_posted_message (runtime w) "camera").
  { exists (bridge_message "camera"). repeat split; reflexivity. }
  assert (Hmic : reads_posted_message (runtime w) "microphone").
  { exists (bridge_message "microphone"). repeat split; reflexivity. }
  split; [exact Hcam |]. split; [exact Hmic |].
  exact (proj1 (media_request_reaches_os
                  (fun _ : JsValue => tt) constraints w Hcam Hmic)).
Defined.

(** ** HomeScreen: the address the viewer is opened on *)

Lemma formatUrl_prefixed (u : string) :
  HomeScreen.matches_protocol ("https://" +:+ u) = true.
Proof. reflexivity. Qed.

Lemma formatUrl_has_protocol (u : string) :
  HomeScreen.matches_protocol (HomeScreen.formatUrl u) = true.
Proof.
  unfold HomeScreen.formatUrl.
  destruct (HomeScreen.matches_protocol u) eqn:Hu; cbn [negb];
    [exact Hu | apply formatUrl_prefixed].
Qed.

Lemma formatUrl_idempotent (u : string) :
  HomeScreen.formatUrl (HomeScreen.formatUrl u) = HomeScreen.formatUrl u.
Proof.
  unfold HomeScreen.formatUrl at 1.
  rewrite formatUrl_has_protocol. reflexivity.
Qed.

(** X13. [formatUrl] always yields an address that carries an http or
    https protocol (in any letter case), leaves an address that has one
    untouched (http is not turned into https), and formatting twice is the
    same as formatting once. *)
Theorem formatUrl_adds_protocol_once (u : string) :
  HomeScreen.matches_protocol (HomeScreen.formatUrl u) = true
  /\ (HomeScreen.matches_protocol u = true -> HomeScreen.formatUrl u = u)
  /\ HomeScreen.formatUrl (HomeScreen.formatUrl u) = HomeScreen.formatUrl u.
Proof.
  split; [apply formatUrl_has_protocol |]. split.
  - intros Hu. unfold HomeScreen.formatUrl. rewrite Hu. reflexivity.
  - apply formatUrl_idempotent.
Qed.

Lemma formatUrl_adds_protocol_once_witness :
  HomeScreen.matches_protocol "HTTP://Example.com" = true
  /\ HomeScreen.formatUrl "HTTP://Example.com" = "HTTP://Example.com"
  /\ HomeScreen.formatUrl "ftp://example.com" = "https://ftp://example.com".
Proof.
  split; [reflexivity |]. split; [| reflexivity].
  exact (proj1 (proj2 (formatUrl_adds_protocol_once "HTTP://Example.com"))
           eq_refl).
Defined.

Lemma isValidUrl_run (URL_hostname : string -> option string) (u : string) :
  HomeScreen.isValidUrl URL_hostname u
  = match URL_hostname (HomeScreen.formatUrl u) with
    | Some hostname => negb (bool_decide (hostname = EmptyString))
    | None => false
    end.
Proof.
  unfold HomeScreen.isValidUrl, HomeScreen.new_URL_hostname, HomeScreen.formatUrl.
  destruct (URL_hostname _); reflexivity.
Qed.

Lemma isValidUrl_iff (URL_hostname : string -> option string) (u : string) :
  HomeScreen.isValidUrl URL_hostname u = true <->
    exists hostname : string,
      URL_hostname (HomeScreen.formatUrl u) = Some hostname
      /\ hostname <> EmptyString.
Proof.
  rewrite isValidUrl_run.
  destruct (URL_hostname (HomeScreen.formatUrl u)) as [h | ].
  - rewrite negb_true_iff, bool_decide_eq_false. split.
    + intros Hh. exists h. auto.
    + intros (h' & Heq & Hh). congruence.
  - split; [discriminate | intros (h & Heq & _); discriminate].
Qed.

(** X14. [isValidUrl] validates the very address [formatUrl] produces: it
    accepts an input exactly when the URL constructor accepts the formatted
    address and gives it a non-empty host name; hence an input and its
    formatted form are accepted alike. *)
Theorem isValidUrl_checks_formatted_url
    (URL_hostname : string -> option string) (u : string) :
  (HomeScreen.isValidUrl URL_hostname u = true <->
     exists hostname : string,
       URL_hostname (HomeScreen.formatUrl u) = Some hostname
       /\ hostname <> EmptyString)
  /\ HomeScreen.isValidUrl URL_hostname (HomeScreen.formatUrl u)
     = HomeScreen.isValidUrl URL_hostname u.
Proof.
  split; [apply isValidUrl_iff |].
  rewrite !isValidUrl_run, formatUrl_idempotent. reflexivity.
Qed.

(** X15. [handleOpenUrl] does exactly one thing: it alerts, or it opens the
    viewer.  It opens the viewer exactly when the trimmed input is not empty
    and the URL constructor accepts its formatted form with a non-empty host
    name; the address handed over is that formatted form, so it always
    carries an http or https protocol. *)
Theorem handleOpenUrl_opens_only_valid_addresses
    (trim : string -> string) (URL_hostname : string -> option string)
    (url : string) :
  let effects := HomeScreen.handleOpenUrl trim URL_hostname url in
  let target := HomeScreen.formatUrl (trim url) in
  length effects = 1
  /\ (forall address : string,
        In (HomeScreen.NavigateToWebView address) effects ->
        address = target /\ HomeScreen.matches_protocol address = true)
  /\ (In (HomeScreen.NavigateToWebView target) effects <->
        trim url <> EmptyString
        /\ exists hostname : string,
             URL_hostname target = Some hostname /\ hostname <> EmptyString).
Proof.
  intros effects target. subst effects.
  pose proof (isValidUrl_iff URL_hostname (trim url)) as Hvalid.
  fold target in Hvalid.
  unfold HomeScreen.handleOpenUrl. fold target.
  destruct (bool_decide_reflect (trim url = EmptyString)) as [He | Hne].
  - split; [reflexivity |]. split.
    + intros a [H | []]; discriminate H.
    + split; [intros [H | []]; discriminate H | intros [H _]; contradiction].
  - destruct (HomeScreen.isValidUrl URL_hostname (trim url)) eqn:Hv; cbn [negb].
    + split; [reflexivity |]. split.
      * intros a [H | []]. inversion H; subst a.
        split; [reflexivity | apply formatUrl_has_protocol].
      * split; [intros _; split; [exact Hne | apply Hvalid; reflexivity]
               | intros _; left; reflexivity].
    + split; [reflexivity |]. split.
      * intros a [H | []]; discriminate H.
      * split; [intros [H | []]; discriminate H |].
        intros [_ H]. apply Hvalid in H. discriminate H.
Qed.

Lemma handleOpenUrl_opens_only_valid_addresses_witness :
  let trim := fun s : string => s in
  let URL_hostname := fun s : string =>
    if decide (s = "https://example.com") then Some "example.com" else None in
  HomeScreen.handleOpenUrl trim URL_hostname "example.com"
  = [HomeScreen.NavigateToWebView "https://example.com"]
  /\ HomeScreen.handleOpenUrl trim URL_hostname "exa mple"
     = [HomeScreen.HomeAlert "Invalid URL" "Please enter a valid URL"]
  /\ (In (HomeScreen.NavigateToWebView "https://example.com")
        (HomeScreen.handleOpenUrl trim URL_hostname "example.com") <->
      "example.com" <> EmptyString
      /\ exists hostname : string,
           URL_hostname "https://example.com" = Some hostname
           /\ hostname <> EmptyString).
Proof.
  intros trim URL_hostname. split; [reflexivity |]. split; [reflexivity |].
  exact (proj2 (proj2 (handleOpenUrl_opens_only_valid_addresses
                         trim URL_hostname "example.com"))).
Defined.

(** ** App: the permission request at start-up *)

(** X16. [requestAndroidPermissions] never throws.  Off Android it does
    nothing.  On Android it asks once, for exactly the camera and the
    record-audio permission; it then shows its notice (a single OK button)
    exactly when the request was answered and some returned result is not
    granted, and logs exactly when the request failed. *)
Theorem requestAndroidPermissions_behaviour
    (answer : list App.AndroidPermission -> App.MultiOutcome) (os : PlatformOS) :
  let run := App.requestAndroidPermissions answer os in
  let notice :=
    App.AppAlert "Permissions Notice"
      "Camera and microphone permissions are needed for full functionality. You can enable them in Settings."
      ok_buttons in
  fst run = Normal tt
  /\ (os <> android -> snd run = [])
  /\ (os = android ->
      exists rest : list App.AppEffect,
        snd run = App.RequestMultiple [App.CAMERA; App.RECORD_AUDIO] :: rest
        /\ (rest = [notice] <->
              exists results : list (string * App.AndroidResult),
                answer [App.CAMERA; App.RECORD_AUDIO] = App.MultiResolved results
                /\ Exists (fun result => result <> App.RESULT_GRANTED)
                     (App.Object_values results))
        /\ (forall e : JsError,
              rest = [App.AppConsoleError "Error requesting permissions:" e] <->
              answer [App.CAMERA; App.RECORD_AUDIO] = App.MultiRejected e)
        /\ (rest = []
            \/ rest = [notice]
            \/ exists e : JsError,
                 rest = [App.AppConsoleError "Error requesting permissions:" e])).
Proof.
  intros run notice. subst run. unfold App.requestAndroidPermissions.
  destruct (bool_decide_reflect (os = android)) as [-> | Hos]; cbn [negb].
  2: { split; [reflexivity |]. split; [reflexivity | contradiction]. }
  unfold tr_try_catch, tr_bind, App.requestMultiple.
  destruct (answer [App.CAMERA; App.RECORD_AUDIO]) as [results | e0].
  - assert (Hall : forallb (fun result => bool_decide (result = App.RESULT_GRANTED))
                     (App.Object_values results) = false
                   <-> Exists (fun result => result <> App.RESULT_GRANTED)
                         (App.Object_values results)).
    { induction (App.Object_values results) as [ | r l IH]; cbn.
      - split; [discriminate | intros H; inversion H].
      - rewrite andb_false_iff, bool_decide_eq_false, IH, Exists_cons.
        reflexivity. }
    destruct (forallb _ (App.Object_values results)) eqn:Hf; cbn.
    + split; [reflexivity |]. split; [congruence |]. intros _.
      exists []. split; [reflexivity |]. split.
      * split; [discriminate |]. intros (rs & Heq & Hex).
        inversion Heq; subst rs. apply Hall in Hex. discriminate Hex.
      * split; [| left; reflexivity].
        intros e. split; discriminate.
    + split; [reflexivity |]. split; [congruence |]. intros _.
      exists [notice]. split; [reflexivity |]. split.
      * split; [| reflexivity]. intros _. exists results.
        split; [reflexivity | apply Hall; reflexivity].
      * split; [| right; left; reflexivity].
        intros e. split; discriminate.
  - cbn. split; [reflexivity |]. split; [congruence |]. intros _.
    exists [App.AppConsoleError "Error requesting permissions:" e0].
    split; [reflexivity |]. split.
    + split; [discriminate | intros (rs & Heq & _); discriminate Heq].
    + split; [| right; right; exists e0; reflexivity].
      intros e. split; intros H; inversion H; reflexivity.
Qed.

Lemma requestAndroidPermissions_behaviour_witness :
  let answer := fun _ : list App.AndroidPermission =>
    App.MultiResolved [("android.permission.CAMERA", App.RESULT_GRANTED);
                       ("android.permission.RECORD_AUDIO",
                        App.RESULT_NEVER_ASK_AGAIN)] in
  snd (App.requestAndroidPermissions answer ios) = []
  /\ snd (App.requestAndroidPermissions answer android)
     = [App.RequestMultiple [App.CAMERA; App.RECORD_AUDIO];
        App.AppAlert "Permissions Notice"
          "Camera and microphone permissions are needed for full functionality. You can enable them in Settings."
          ok_buttons].
Proof.
  intros answer. split; [| reflexivity].
  apply (proj1 (proj2 (requestAndroidPermissions_behaviour answer ios))).
  discriminate.
Defined.

(** ** The hardware back button, in any state *)

(** X17. [onBackPress] always consumes the back action (it returns true, so
    the system default never runs) and leaves the screen state alone.  It
    does exactly one thing: it steps the content history when [canGoBack]
    is true and a [WebView] is attached, and exits the viewer in every other
    case, a missing [WebView] included. *)
Theorem onBackPress_consumes_and_picks_one (w : World) :
  let run := WebViewScreen.onBackPress w in
  fst run = Normal true
  /\ screen (snd run) = screen w
  /\ (forall wv : WebViewInstance,
        new_effects w (snd run) = [EvWebViewGoBack wv] <->
        canGoBack (screen w) = true /\ webViewRef (screen w) = Some wv)
  /\ (new_effects w (snd run) = [EvOnGoBack] <->
        canGoBack (screen w) = false \/ webViewRef (screen w) = None).
Proof.
  intros run. subst run.
  unfold WebViewScreen.onBackPress, bind, WebViewScreen.get_screen.
  destruct (canGoBack (screen w)) eqn:Hc, (webViewRef (screen w)) as [wv0 | ] eqn:Hr;
    cbn [fst snd];
    (split; [reflexivity |]); (split; [reflexivity |]);
    erewrite new_effects_app by reflexivity.
  - split.
    + intros wv. destruct wv, wv0.
      split; [intros _; split; reflexivity | intros _; reflexivity].
    + split; [discriminate | intros [H | H]; discriminate H].
  - split.
    + intros wv. split; [discriminate | intros [_ H]; discriminate H].
    + split; [auto | reflexivity].
  - split.
    + intros wv. split; [discriminate | intros [H _]; discriminate H].
    + split; [auto | reflexivity].
  - split.
    + intros wv. split; [discriminate | intros [H _]; discriminate H].
    + split; [auto | reflexivity].
Qed.

Lemma onBackPress_consumes_and_picks_one_witness :
  let w := WebViewScreen.mount (sample_runtime android (always GRANTED)) in
  let w1 := snd (WebViewScreen.setCanGoBack true w) in
  canGoBack (screen w1) = true
  /\ webViewRef (screen w1) = None
  /\ new_effects w1 (snd (WebViewScreen.onBackPress w1)) = [EvOnGoBack].
Proof.
  intros w w1. split; [reflexivity |]. split; [reflexivity |].
  apply (proj2 (proj2 (proj2 (onBackPress_consumes_and_picks_one w1)))).
  right. reflexivity.
Defined.
